(** * stackstac.to_dask: lazy task-graph construction and window fetch

    A shallow embedding of [stackstac/to_dask.py].

    The Python module is a thin layer of glue over four collaborators:
    NumPy (arrays, casting), rasterio (pixel windows), dask (chunked
    arrays and blockwise graphs) and the [Reader] protocol.  The glue is
    embedded as Rocq functions; what it calls in NumPy, rasterio and the
    Reader protocol is kept abstract behind type classes, because the
    module itself treats those values opaquely.  The small part of dask
    that decides the chunk structure ([normalize_chunks] for an integer
    chunk size, [from_array], [map_blocks], [blockwise]) is modelled
    concretely, as a symbolic description of the graph layers. *)

From Stdlib Require Import ZArith List String Bool Lia Arith QArith.
Import ListNotations.
Open Scope string_scope.
Open Scope nat_scope.
Open Scope list_scope.

Set Implicit Arguments.

(** ** Python exceptions and the state-and-error monad *)

(** The exceptions that can leave this module.  [AssertionError] is only
    ever raised by the two [assert] statements of [fetch_raster_window];
    an exception escaping [Reader.read] is tagged [ReaderException] with
    the name of its class, whatever that class is. *)
Inductive exn : Type :=
| AssertionError
| ValueError
| IndexError
| ZeroDivisionError
| WindowError
| NumpyCastError
| TypeError
| KeyError
| ReaderException (cls : string).

Inductive result (A : Type) : Type :=
| Ok (a : A)
| Err (e : exn).
Arguments Ok {A} a.
Arguments Err {A} e.

Definition rbind {A B} (r : result A) (k : A -> result B) : result B :=
  match r with
  | Ok a => k a
  | Err e => Err e
  end.

Definition of_option {A} (o : option A) (e : exn) : result A :=
  match o with
  | Some a => Ok a
  | None => Err e
  end.

(** Computations that thread a state [S] and may raise.  A raise keeps the
    state reached so far, as a Python exception keeps the side effects
    already performed. *)
Definition M (S A : Type) : Type := S -> result A * S.

Definition ret {S A} (a : A) : M S A := fun s => (Ok a, s).

Definition raise {S A} (e : exn) : M S A := fun s => (Err e, s).

Definition bind {S A B} (m : M S A) (k : A -> M S B) : M S B :=
  fun s =>
    match m s with
    | (Ok a, s') => k a s'
    | (Err e, s') => (Err e, s')
    end.

Definition lift {S A} (r : result A) : M S A := fun s => (r, s).

(** [assert cond] *)
Definition assert {S} (cond : bool) : M S unit :=
  if cond then ret tt else raise AssertionError.

Declare Scope py_scope.
Delimit Scope py_scope with py.
Notation "x <- m ;; k" := (bind m (fun x => k))
  (at level 61, m at next level, right associativity) : py_scope.
Notation "m ;;; k" := (bind m (fun _ => k))
  (at level 61, right associativity) : py_scope.
Notation "x <~ r ;; k" := (rbind r (fun x => k))
  (at level 61, r at next level, right associativity) : py_scope.

(** [mapM] over a list in iteration order: the first exception aborts. *)
Fixpoint mapR {A B} (f : A -> result B) (l : list A) : result (list B) :=
  match l with
  | [] => Ok []
  | x :: l' =>
      (y <~ f x ;; ys <~ mapR f l' ;; Ok (y :: ys))%py
  end.

(** The same in the state-and-error monad. *)
Definition mapM {S A B} (f : A -> M S B) : list A -> M S (list B) :=
  fix go (l : list A) : M S (list B) :=
    match l with
    | [] => ret []
    | x :: l' => (y <- f x ;; ys <- go l' ;; ret (y :: ys))%py
    end.

(** ** Python sequences *)

(** [l[i]] on a tuple or list: negative indices count from the end,
    anything out of range raises [IndexError]. *)
Definition py_getitem {A} (l : list A) (i : Z) : result A :=
  let n := Z.of_nat (List.length l) in
  let j := if (i <? 0)%Z then (i + n)%Z else i in
  if ((0 <=? j) && (j <? n))%Z
  then of_option (nth_error l (Z.to_nat j)) IndexError
  else Err IndexError.

(** [slice(start, stop)] with integer bounds. *)
Record slice : Type := Slice { start : Z; stop : Z }.

Module itertools.

(** [itertools.accumulate(c, initial=i)]: the running sums, starting
    with [i] itself. *)
Fixpoint accumulate (c : list Z) (initial : Z) : list Z :=
  initial ::
    match c with
    | [] => []
    | x :: c' => accumulate c' (initial + x)%Z
    end.

(** [itertools.product] of a list of lists, in its lexicographic order. *)
Fixpoint product {A} (ls : list (list A)) : list (list A) :=
  match ls with
  | [] => [[]]
  | l :: ls' => flat_map (fun x => map (cons x) (product ls')) l
  end.

End itertools.

(** ** The window index: class [Slices] *)

Module SlicesDep.

(** [class Slices(BlockwiseDep)]: its only instance attribute is
    [starts], one tuple of cumulative offsets per axis. *)
Record Slices : Type := { starts : list (list Z) }.

Definition produces_tasks : bool := false.

(** [Slices.__init__] *)
Definition init (chunks : list (list Z)) : Slices :=
  {| starts := map (fun c => itertools.accumulate c 0%Z) chunks |}.

(** [Slices.__getitem__]: the generator walks [zip(idx, self.starts)]
    and stops at the shorter of the two. *)
Fixpoint getitem_zip (idx : list Z) (sts : list (list Z))
  : result (list slice) :=
  match idx, sts with
  | i :: idx', st :: sts' =>
      (a <~ py_getitem st i ;;
       b <~ py_getitem st (i + 1)%Z ;;
       rest <~ getitem_zip idx' sts' ;;
       Ok (Slice a b :: rest))%py
  | _, _ => Ok []
  end.

Definition getitem (self : Slices) (idx : list Z) : result (list slice) :=
  getitem_zip idx (starts self).

(** [Slices.numblocks] *)
Definition numblocks (self : Slices) : list Z :=
  map (fun s => (Z.of_nat (List.length s) - 1)%Z) (starts self).

(** [Slices.__dask_distributed_pack__] *)
Definition dask_distributed_pack
  (self : Slices) (required_indices : option (list (list Z)))
  : list (list Z) :=
  starts self.

(** [Slices.__dask_distributed_unpack__] *)
Definition dask_distributed_unpack (state : list (list Z)) : Slices :=
  {| starts := state |}.

(** Number of integers an instance holds. *)
Definition stored_ints (self : Slices) : nat :=
  list_sum (map (@List.length Z) (starts self)).

End SlicesDep.

(** Reference notions used to state what the window index computes. *)

Definition zsum (l : list Z) : Z := fold_right Z.add 0%Z l.

(** [cum c k]: the sum of the first [k] chunk sizes of an axis, so
    [cum c 0 = 0]. *)
Definition cum (c : list Z) (k : Z) : Z := zsum (firstn (Z.to_nat k) c).

Definition in_range (ic : Z * list Z) : Prop :=
  (0 <= fst ic < Z.of_nat (List.length (snd ic)))%Z.

Definition window_of (ic : Z * list Z) : slice :=
  Slice (cum (snd ic) (fst ic)) (cum (snd ic) (fst ic + 1)).

(** ** NumPy arrays *)

(** What the module needs from NumPy's scalar types: the values a pixel
    or a fill value can take, the dtypes, the value-based test
    [np.can_cast(value, dtype)] and the conversion [np.array(value, dtype)]
    performs ([None] when NumPy raises instead of converting). *)
Class NumPy : Type := {
  scalar : Type;
  np_dtype : Type;
  object_ : np_dtype;
  can_cast : scalar -> np_dtype -> bool;
  np_cast : scalar -> np_dtype -> option scalar
}.

(** An [np.ndarray]: dtype, shape and the elements in C (row-major)
    order. *)
Record ndarray (D A : Type) : Type := NDArray {
  nd_dtype : D;
  nd_shape : list nat;
  nd_data : list A
}.

Definition prod_shape (sh : list nat) : nat := fold_right Nat.mul 1 sh.

(** [a.size] *)
Definition nd_size {D A} (a : ndarray D A) : nat := prod_shape (nd_shape a).

(** An array whose buffer has as many elements as its shape says. *)
Definition well_formed {D A} (a : ndarray D A) : Prop :=
  List.length (nd_data a) = nd_size a.

(** [a.item()]: the single element of an array of size 1. *)
Definition nd_item {D A} (a : ndarray D A) : result A :=
  match nd_data a with
  | [x] => Ok x
  | _ => Err ValueError
  end.

(** [a[None, None]]: two new leading axes of length 1, same buffer. *)
Definition expand_dims2 {D A} (a : ndarray D A) : ndarray D A :=
  NDArray (nd_dtype a) (1 :: 1 :: nd_shape a) (nd_data a).

(** [k] consecutive pieces of [n] elements each. *)
Fixpoint pieces {A} (n k : nat) (l : list A) : list (list A) :=
  match k with
  | 0 => []
  | S k' => firstn n l :: pieces n k' (skipn n l)
  end.

(** Broadcasting of a buffer from shape [src] to shape [tgt] of the same
    rank: an axis of equal length is walked, an axis of length 1 is
    repeated. *)
Fixpoint broadcast_data {A} (src tgt : list nat) (d : list A) : list A :=
  match src, tgt with
  | s :: src', t :: tgt' =>
      if s =? t
      then List.concat (map (broadcast_data src' tgt') (pieces (prod_shape src') s d))
      else List.concat (repeat (broadcast_data src' tgt' d) t)
  | _, _ => d
  end.

Fixpoint broadcastable (src tgt : list nat) : bool :=
  match src, tgt with
  | [], [] => true
  | s :: src', t :: tgt' => ((s =? t) || (s =? 1)) && broadcastable src' tgt'
  | _, _ => false
  end.

(** [np.broadcast_to(a, shape)]: the array's shape is padded with leading
    1s; an incompatible shape raises [ValueError]. *)
Definition broadcast_to {D A} (a : ndarray D A) (shape : list nat)
  : result (ndarray D A) :=
  if List.length (nd_shape a) <=? List.length shape then
    let src :=
      repeat 1 (List.length shape - List.length (nd_shape a)) ++ nd_shape a in
    if broadcastable src shape
    then Ok (NDArray (nd_dtype a) shape (broadcast_data src shape (nd_data a)))
    else Err ValueError
  else Err ValueError.

(** Basic slicing [x[sl]] with one [slice(start, stop)] per leading axis,
    [0 <= start <= stop]; a slice is clipped to the axis. *)
Fixpoint slice_data {A} (shape : list nat) (sl : list slice) (d : list A)
  : list A :=
  match shape, sl with
  | n :: shape', s :: sl' =>
      List.concat
        (map (slice_data shape' sl')
           (firstn (Z.to_nat (stop s) - Z.to_nat (start s))
              (skipn (Z.to_nat (start s)) (pieces (prod_shape shape') n d))))
  | _, _ => d
  end.

Fixpoint slice_shape (shape : list nat) (sl : list slice) : list nat :=
  match shape, sl with
  | n :: shape', s :: sl' =>
      (Nat.min (Z.to_nat (stop s)) n - Nat.min (Z.to_nat (start s)) n)
        :: slice_shape shape' sl'
  | _, _ => shape
  end.

(** dask's [getter(x, sl)] *)
Definition getter {D A} (x : ndarray D A) (sl : list slice) : ndarray D A :=
  NDArray (nd_dtype x) (slice_shape (nd_shape x) sl)
    (slice_data (nd_shape x) sl (nd_data x)).

(** The array of the given shape whose every element is [x]. *)
Definition full {D A} (d : D) (shape : list nat) (x : A) : ndarray D A :=
  NDArray d shape (repeat x (prod_shape shape)).

Section NumPyArrays.
Context `{NumPy}.

(** [np.array(value, dtype)] for a Python number: a 0-d array. *)
Definition np_array (value : scalar) (dtype : np_dtype)
  : result (ndarray np_dtype scalar) :=
  (x <~ of_option (np_cast value dtype) NumpyCastError ;;
   Ok (NDArray dtype [] [x]))%py.

End NumPyArrays.

(** ** dask: chunk normalisation *)

Module dask.

(** [dask.base.tokenize]: a deterministic hash of any Python value. *)
Class Tokenize : Type := { tokenize : forall A : Type, A -> string }.

(** One axis of [normalize_chunks(chunks, shape)] for an integer
    [chunks]: [-1] stands for the whole axis, then
    [blockdims_from_blockshape] first tests the block sizes with
    [np.isnan], which raises [TypeError] on an integer of 2^64 or more
    (NumPy has no integer type that holds it), and then cuts an axis of
    length [d] into [d // bd] blocks of [bd] and one block of [d % bd]
    if that is not zero; an axis of length 0 is the single block
    [(0,)].  A block size of 0 divides by zero and a negative one
    yields blocks that do not add up to the axis, which is a
    [ValueError]. *)
Definition normalize_axis (chunks : Z) (d : nat) : result (list Z) :=
  let dz := Z.of_nat d in
  let bd := if (chunks =? -1)%Z then dz else chunks in
  if (2 ^ 64 <=? bd)%Z then Err TypeError
  else if (dz =? 0)%Z then Ok [0%Z]
  else if (bd =? 0)%Z then Err ZeroDivisionError
  else if (bd <? 0)%Z then Err ValueError
  else
    Ok (repeat bd (Z.to_nat (dz / bd)) ++
        (if (dz mod bd =? 0)%Z then [] else [(dz mod bd)%Z])).

Definition normalize_chunks (chunks : Z) (shape : list nat)
  : result (list (list Z)) :=
  mapR (normalize_axis chunks) shape.

(** The slices of the blocks of one axis, from its chunk sizes. *)
Definition axis_slices (c : list Z) : list slice :=
  let starts := itertools.accumulate c 0%Z in
  map (fun ab => Slice (fst ab) (snd ab)) (combine starts (tl starts)).

(** [slices_from_chunks]: one tuple of slices per block, in the order
    of the block keys. *)
Definition slices_from_chunks (chunks : list (list Z)) : list (list slice) :=
  itertools.product (map axis_slices chunks).

(** The block coordinates of an array with these chunks. *)
Definition block_keys (chunks : list (list Z)) : list (list nat) :=
  itertools.product (map (fun c => seq 0 (List.length c)) chunks).

End dask.

(** ** rasterio windows and the raster spec *)

(** [rasterio.windows] as this module uses it.  A [Window] is never
    inspected here, only built, tested for intersection and asked for its
    shape.  [from_slices] is [Window.from_slices(rows, cols)] and
    [from_bounds] is [windows.from_bounds(left, bottom, right, top,
    transform=, precision=)]; both raise on some inputs, which is [None]
    here. *)
Class Rasterio : Type := {
  Window : Type;
  Affine : Type;
  coord : Type;
  Resampling : Type;
  nearest : Resampling;
  from_slices : slice -> slice -> option Window;
  intersect : Window -> Window -> bool;
  window_shape : Window -> nat * nat;
  from_bounds : coord -> coord -> coord -> coord -> Affine -> Q -> option Window
}.

(** [RasterSpec] and [LayeredEnv] are defined in sibling modules; only
    [spec.shape] and [spec.transform] are used here. *)
Class RasterSpecs `{Rasterio} : Type := {
  RasterSpec : Type;
  LayeredEnv : Type;
  spec_shape : RasterSpec -> nat * nat;
  spec_transform : RasterSpec -> Affine
}.

(** ** The [Reader] protocol *)

(** A reader exposes [fill_value], [dtype] and [read(window)].  Reading
    touches the outside world (files, caches, lazily opened datasets),
    which is the state [World]; a raised exception is reported by the
    name of its class. *)
Class ReaderProtocol `{NumPy} `{Rasterio} : Type := {
  Reader : Type;
  World : Type;
  reader_fill_value : Reader -> scalar;
  reader_dtype : Reader -> np_dtype;
  reader_read :
    Reader -> Window -> World -> (string + ndarray np_dtype scalar) * World
}.

Section ToDask.
Context `{NP : NumPy} `{RIO : Rasterio}.
Context `{RS : !RasterSpecs} `{RP : !ReaderProtocol}.

Definition Bbox : Type := (coord * coord * coord * coord)%type.

(** One cell of the asset table: the fields ["url"] and ["bounds"]. *)
Record AssetEntry : Type := { url : option string; bounds : Bbox }.

(** [ReaderTableEntry = Union[tuple[Reader, Window], np.ndarray]] *)
Inductive ReaderTableEntry : Type :=
| entry_tuple (reader : Reader) (asset_window : Window)
| entry_array (fill_arr : ndarray np_dtype scalar).

(** The class passed as [reader]: its keyword-only constructor. *)
Definition ReaderType : Type :=
  string -> RasterSpec -> Resampling -> np_dtype -> scalar -> bool ->
  option LayeredEnv -> list string -> Reader.

(** [reader.read(window)] as a computation on the world. *)
Definition read (reader : Reader) (window : Window)
  : M World (ndarray np_dtype scalar) :=
  fun world =>
    match reader_read reader window world with
    | (inr data, world') => (Ok data, world')
    | (inl cls, world') => (Err (ReaderException cls), world')
    end.

(** [windows.Window.from_slices( *slices )] *)
Definition from_slices_star (slices : list slice) : result Window :=
  match slices with
  | [rows; cols] => of_option (from_slices rows cols) WindowError
  | _ => Err TypeError
  end.

(** The body of the loop of [asset_table_to_reader_and_window]. *)
Definition reader_table_entry
  (spec : RasterSpec) (resampling : Resampling) (dtype : np_dtype)
  (fill_value : scalar) (rescale : bool) (gdal_env : option LayeredEnv)
  (errors_as_nodata : list string) (reader : ReaderType)
  (asset_entry : AssetEntry) : result ReaderTableEntry :=
  match url asset_entry with
  | None =>
      (entry <~ np_array fill_value dtype ;;
       Ok (entry_array entry))%py
  | Some u =>
      let '(west, south, east, north) := bounds asset_entry in
      (asset_window <~
         of_option
           (from_bounds west south east north (spec_transform spec) 0%Q)
           WindowError ;;
       Ok (entry_tuple
             (reader u spec resampling dtype fill_value rescale gdal_env
                errors_as_nodata)
             asset_window))%py
  end.

(** [asset_table_to_reader_and_window]: [np.ndenumerate] visits the
    cells in C order and each result is stored at the same index of an
    object array made by [np.empty_like]. *)
Definition asset_table_to_reader_and_window
  (asset_table : ndarray np_dtype AssetEntry)
  (spec : RasterSpec) (resampling : Resampling) (dtype : np_dtype)
  (fill_value : scalar) (rescale : bool) (gdal_env : option LayeredEnv)
  (errors_as_nodata : list string) (reader : ReaderType)
  : result (ndarray np_dtype ReaderTableEntry) :=
  (entries <~
     mapR (reader_table_entry spec resampling dtype fill_value rescale
             gdal_env errors_as_nodata reader)
       (nd_data asset_table) ;;
   Ok (NDArray object_ (nd_shape asset_table) entries))%py.

(** [(1, 1) + windows.shape(current_window)] *)
Definition block_shape (current_window : Window) : list nat :=
  [1; 1; fst (window_shape current_window);
   snd (window_shape current_window)].

(** [fetch_raster_window] *)
Definition fetch_raster_window
  (reader_entry : ndarray np_dtype ReaderTableEntry)
  (slices : list slice) : M World (ndarray np_dtype scalar) :=
  (assert (List.length slices =? 2) ;;;
   assert (nd_size reader_entry =? 1) ;;;
   entry <- lift (nd_item reader_entry) ;;
   current_window <- lift (from_slices_star slices) ;;
   match entry with
   | entry_tuple reader asset_window =>
       if intersect current_window asset_window then
         data <- read reader current_window ;;
         ret (expand_dims2 data)
       else
         fill_arr <-
           lift (np_array (reader_fill_value reader) (reader_dtype reader)) ;;
         lift (broadcast_to fill_arr (block_shape current_window))
   | entry_array fill_arr =>
       lift (broadcast_to fill_arr (block_shape current_window))
   end)%py.

(** ** dask: graph layers and arrays *)

Context `{TK : dask.Tokenize}.

(** The two functions this module hands to dask, with the extra
    positional arguments [map_blocks] binds to the first one. *)
Inductive BlockFunc : Type :=
| f_asset_table_to_reader_and_window
    (spec : RasterSpec) (resampling : Resampling) (dtype : np_dtype)
    (fill_value : scalar) (rescale : bool) (gdal_env : option LayeredEnv)
    (errors_as_nodata : list string) (reader : ReaderType)
| f_fetch_raster_window.

(** An argument of a blockwise layer: a chunked array, by name and
    number of blocks, or a [BlockwiseDep]. *)
Inductive BlockwiseArg : Type :=
| arg_array (name : string) (numblocks : list nat)
| arg_dep (dep : SlicesDep.Slices).

(** A layer of a [HighLevelGraph].  A materialized layer lists one task
    per block: the block's coordinate and the slices its getter takes
    from the in-lined source array.  A blockwise layer is symbolic: a
    function, the output index and the arguments with their indices;
    none of its tasks exists until the scheduler asks for it. *)
Inductive Layer : Type :=
| MaterializedLayer
    (name : string) (source : ndarray np_dtype AssetEntry)
    (tasks : list (list nat * list slice))
| BlockwiseLayer
    (name : string) (func : BlockFunc) (out_ind : string)
    (args : list (BlockwiseArg * string))
    (annotations : list (string * bool)).

Definition layer_name (lyr : Layer) : string :=
  match lyr with
  | MaterializedLayer name _ _ => name
  | BlockwiseLayer name _ _ _ _ => name
  end.

(** A [da.Array]: its graph (layers, dependencies first), the name of
    its own layer, its chunks and the dtype of its meta. *)
Record Array : Type := {
  dask_graph : list Layer;
  array_name : string;
  chunks : list (list Z);
  meta_dtype : np_dtype
}.

(** [Array.numblocks] *)
Definition array_numblocks (a : Array) : list nat :=
  map (@List.length Z) (chunks a).

(** Graph construction as a computation on the list of layers created
    so far. *)
Definition Build (A : Type) : Type := M (list Layer) A.

Definition new_layer (lyr : Layer) : Build unit :=
  fun created => (Ok tt, created ++ [lyr]).

(** [da.from_array(x, chunks=, inline_array=True, name=)]: one getter
    task per block. *)
Definition from_array
  (x : ndarray np_dtype AssetEntry) (chunks : Z) (name : string)
  : Build Array :=
  (cs <- lift (dask.normalize_chunks chunks (nd_shape x)) ;;
   let lyr :=
     MaterializedLayer name x
       (combine (dask.block_keys cs) (dask.slices_from_chunks cs)) in
   new_layer lyr ;;;
   ret {| dask_graph := [lyr]; array_name := name; chunks := cs;
          meta_dtype := nd_dtype x |})%py.

(** [arr.map_blocks(func, *args, dtype=)]: a blockwise layer with the
    same index on both sides, so the chunks are the input's.  The layer
    carries the annotations in force. *)
Definition map_blocks
  (arr : Array) (func : BlockFunc) (funcname : string) (dtype : np_dtype)
  (annotations : list (string * bool)) : Build Array :=
  let name :=
    (funcname ++ "-" ++ dask.tokenize (array_name arr, func))%string in
  let lyr :=
    BlockwiseLayer name func "tb"
      [(arg_array (array_name arr) (array_numblocks arr), "tb")]
      annotations in
  (new_layer lyr ;;;
   ret {| dask_graph := dask_graph arr ++ [lyr]; array_name := name;
          chunks := chunks arr; meta_dtype := dtype |})%py.

(** [dask.blockwise.blockwise(func, output, output_indices, *arrind_pairs,
    numblocks=)] *)
Definition blockwise
  (func : BlockFunc) (output : string) (output_indices : string)
  (arrind_pairs : list (BlockwiseArg * string)) : Build Layer :=
  let lyr := BlockwiseLayer output func output_indices arrind_pairs [] in
  (new_layer lyr ;;; ret lyr)%py.

(** [HighLevelGraph.from_collections(name, layer, dependencies)] *)
Definition from_collections
  (name : string) (lyr : Layer) (dependencies : list Array) : list Layer :=
  flat_map dask_graph dependencies ++ [lyr].

(** [errors_as_nodata or ()] *)
Definition or_empty (errors_as_nodata : option (list string)) : list string :=
  match errors_as_nodata with
  | Some (e :: es) => e :: es
  | _ => []
  end.

(** [items_to_dask] *)
Definition items_to_dask
  (asset_table : ndarray np_dtype AssetEntry) (spec : RasterSpec)
  (chunksize : Z) (resampling : Resampling) (dtype : np_dtype)
  (fill_value : scalar) (rescale : bool) (reader : ReaderType)
  (gdal_env : option LayeredEnv) (errors_as_nodata : option (list string))
  : Build Array :=
  let errors_as_nodata := or_empty errors_as_nodata in
  if negb (can_cast fill_value dtype) then raise ValueError
  else
    (asset_table_dask <-
       from_array asset_table 1
         ("asset-table-" ++ dask.tokenize asset_table)%string ;;
     reader_table <-
       map_blocks asset_table_dask
         (f_asset_table_to_reader_and_window spec resampling dtype
            fill_value rescale gdal_env errors_as_nodata reader)
         "asset_table_to_reader_and_window" object_
         [("fuse", false)] ;;
     let shape_yx := spec_shape spec in
     chunks_yx <-
       lift (dask.normalize_chunks chunksize
               [fst shape_yx; snd shape_yx]) ;;
     let chunks := chunks reader_table ++ chunks_yx in
     let name :=
       ("fetch_raster_window-"
        ++ dask.tokenize (array_name reader_table, chunks))%string in
     lyr <-
       blockwise f_fetch_raster_window name "tbyx"
         [(arg_array (array_name reader_table)
             (array_numblocks reader_table), "tb");
          (arg_dep (SlicesDep.init chunks_yx), "yx")] ;;
     let dsk := from_collections name lyr [reader_table] in
     ret {| dask_graph := dsk; array_name := name; chunks := chunks;
            meta_dtype := dtype |})%py.

(** ** What the scheduler computes for one block *)

(** The values that flow between tasks. *)
Inductive BlockValue : Type :=
| v_assets (a : ndarray np_dtype AssetEntry)
| v_readers (a : ndarray np_dtype ReaderTableEntry)
| v_slices (s : list slice)
| v_pixels (a : ndarray np_dtype scalar).

Fixpoint index_of (c : Ascii.ascii) (l : list Ascii.ascii) : option nat :=
  match l with
  | [] => None
  | x :: l' =>
      if Ascii.eqb x c then Some 0 else option_map S (index_of c l')
  end.

(** The coordinate of an argument's block: for each letter of the
    argument's index, the output coordinate at that letter. *)
Definition select (out_ind ind : string) (idx : list nat)
  : result (list nat) :=
  mapR
    (fun c =>
       match index_of c (list_ascii_of_string out_ind) with
       | Some k => of_option (nth_error idx k) KeyError
       | None => Err KeyError
       end)
    (list_ascii_of_string ind).

Fixpoint list_nat_eqb (a b : list nat) : bool :=
  match a, b with
  | [], [] => true
  | x :: a', y :: b' => (x =? y) && list_nat_eqb a' b'
  | _, _ => false
  end.

Definition apply_block_func (func : BlockFunc) (args : list BlockValue)
  : M World BlockValue :=
  match func, args with
  | f_asset_table_to_reader_and_window spec resampling dtype fill_value
      rescale gdal_env errors_as_nodata reader, [v_assets a] =>
      lift
        (rt <~
           asset_table_to_reader_and_window a spec resampling dtype
             fill_value rescale gdal_env errors_as_nodata reader ;;
         Ok (v_readers rt))%py
  | f_fetch_raster_window, [v_readers r; v_slices s] =>
      (px <- fetch_raster_window r s ;; ret (v_pixels px))%py
  | _, _ => raise TypeError
  end.

(** The value of the key [(name, *idx)] in a graph whose layers are
    listed newest first: a materialized task runs its getter, a
    blockwise task first obtains one block per argument. *)
Fixpoint compute_key (layers : list Layer) (name : string) (idx : list nat)
  {struct layers} : M World BlockValue :=
  match layers with
  | [] => raise KeyError
  | lyr :: older =>
      if String.eqb (layer_name lyr) name then
        match lyr with
        | MaterializedLayer _ source tasks =>
            match find (fun t => list_nat_eqb (fst t) idx) tasks with
            | Some (_, sl) => ret (v_assets (getter source sl))
            | None => raise KeyError
            end
        | BlockwiseLayer _ func out_ind args _ =>
            (vals <-
               mapM
                 (fun arg_ind : BlockwiseArg * string =>
                    sub <- lift (select out_ind (snd arg_ind) idx) ;;
                    match fst arg_ind with
                    | arg_array n _ => compute_key older n sub
                    | arg_dep dep =>
                        lift
                          (sl <~ SlicesDep.getitem dep (map Z.of_nat sub) ;;
                           Ok (v_slices sl))
                    end)
                 args ;;
             apply_block_func func vals)%py
        end
      else compute_key older name idx
  end.

(** Computing the block of [arr] at coordinate [idx], one of the block
    coordinates of [arr]. *)
Definition compute_block (arr : Array) (idx : list nat)
  : M World BlockValue :=
  compute_key (rev (dask_graph arr)) (array_name arr) idx.

End ToDask.

(** ** A small concrete world

    Integer pixels, integer windows and a reader that serves a constant
    block: an instance of every interface above, on which the definitions
    can be run. *)

Module Scenario.

Inductive dt : Type := uint8 | int64 | obj.

Definition fits (v : Z) (d : dt) : bool :=
  match d with
  | uint8 => ((0 <=? v) && (v <? 256))%Z
  | int64 => ((- 2 ^ 63 <=? v) && (v <? 2 ^ 63))%Z
  | obj => true
  end.

(** [np.array(v, dtype=d)] on a Python integer: an integer that fits a
    C long is wrapped into an unsigned byte (300 becomes 44), one that
    does not fit a C long is an [OverflowError]. *)
Definition cast (v : Z) (d : dt) : option Z :=
  match d with
  | uint8 => if fits v int64 then Some (v mod 256)%Z else None
  | int64 => if fits v int64 then Some v else None
  | obj => Some v
  end.

#[global] Instance numpy : NumPy := {|
  scalar := Z;
  np_dtype := dt;
  object_ := obj;
  can_cast := fits;
  np_cast := cast
|}.

(** A window with integer offsets and lengths. *)
Record IntWindow : Type := {
  col_off : Z; row_off : Z; width : Z; height : Z
}.

(** [Window.from_slices] on slices that run forwards, the only ones
    [Slices] yields for the coordinates of a block: a negative bound is
    a [WindowError]. *)
Definition int_from_slices (rows cols : slice) : option IntWindow :=
  if ((start rows <? 0) || (stop rows <? 0) || (start cols <? 0)
      || (stop cols <? 0))%Z
  then None
  else Some {| col_off := start cols; row_off := start rows;
               width := Z.max (stop cols - start cols) 0;
               height := Z.max (stop rows - start rows) 0 |}.

(** Two windows intersect when the overlap of their extents has a
    positive width and a positive height. *)
Definition int_intersect (w1 w2 : IntWindow) : bool :=
  let c := Z.max (col_off w1) (col_off w2) in
  let r := Z.max (row_off w1) (row_off w2) in
  let w := (Z.min (col_off w1 + width w1) (col_off w2 + width w2) - c)%Z in
  let h := (Z.min (row_off w1 + height w1) (row_off w2 + height w2) - r)%Z in
  ((0 <? w) && (0 <? h))%Z.

(** The transform of a north-up grid of [rows] rows with unit pixels:
    pixel [(r, c)] lies at [(c, rows - r)]. *)
Definition int_from_bounds (west south east north rows : Z) (precision : Q)
  : option IntWindow :=
  if ((east <? west) || (north <? south))%Z then None
  else Some {| col_off := west; row_off := rows - north;
               width := east - west; height := north - south |}.

#[global] Instance rasterio : Rasterio := {|
  Window := IntWindow;
  Affine := Z;
  coord := Z;
  Resampling := unit;
  nearest := tt;
  from_slices := int_from_slices;
  intersect := int_intersect;
  window_shape := fun w => (Z.to_nat (height w), Z.to_nat (width w));
  from_bounds := int_from_bounds
|}.

#[global] Instance specs : RasterSpecs := {|
  RasterSpec := nat * nat;
  LayeredEnv := unit;
  spec_shape := fun s => s;
  spec_transform := fun s => Z.of_nat (fst s)
|}.

(** A reader that remembers its URL, fill value and dtype.  Reading
    counts one more access to the outside world and yields a block of 7s
    of the window's shape, except for the URL ["broken.tif"]. *)
Record TifReader : Type := {
  tif_url : string; tif_fill : Z; tif_dtype : dt
}.

Definition tif_read (r : TifReader) (w : IntWindow) (opened : nat)
  : (string + ndarray dt Z) * nat :=
  if String.eqb (tif_url r) "broken.tif"
  then (inl "RasterioIOError", S opened)
  else (inr (full (tif_dtype r)
               [Z.to_nat (height w); Z.to_nat (width w)] 7%Z),
        S opened).

#[global] Instance readers : ReaderProtocol := {|
  Reader := TifReader;
  World := nat;
  reader_fill_value := tif_fill;
  reader_dtype := tif_dtype;
  reader_read := tif_read
|}.

Definition open_tif : ReaderType :=
  fun u _ _ dtype fill_value _ _ _ =>
    {| tif_url := u; tif_fill := fill_value; tif_dtype := dtype |}.

#[global] Instance tokens : dask.Tokenize := {|
  dask.tokenize := fun _ _ => "0"
|}.

(** The asset tables of the three scenarios: one cell, with a file
    covering the grid, without a file, and with a file elsewhere. *)
Definition table_of (cells : list AssetEntry) (shape : list nat)
  : ndarray dt AssetEntry :=
  NDArray obj shape cells.

Definition covering : AssetEntry :=
  {| url := Some "a.tif"; bounds := (0, 0, 10, 10)%Z |}.

Definition absent : AssetEntry :=
  {| url := None; bounds := (0, 0, 10, 10)%Z |}.

Definition elsewhere : AssetEntry :=
  {| url := Some "a.tif"; bounds := (20, 20, 30, 30)%Z |}.

Definition stack (cells : list AssetEntry) (shape : list nat)
  (chunksize : Z) (dtype : dt) (fill_value : Z)
  : result Array * list Layer :=
  items_to_dask (table_of cells shape) (10, 10) chunksize tt dtype
    fill_value true open_tif None None [].

(** The block at [idx] of the array [stack] builds, computed in a world
    where nothing has been read yet. *)
Definition block (cells : list AssetEntry) (shape : list nat)
  (chunksize : Z) (dtype : dt) (fill_value : Z) (idx : list nat)
  : result BlockValue * nat :=
  match fst (stack cells shape chunksize dtype fill_value) with
  | Ok arr => compute_block arr idx 0
  | Err e => (Err e, 0)
  end.

End Scenario.

(** * Properties *)

(** ** The window index *)

Section SlicesProperties.

Local Open Scope Z_scope.

Lemma accumulate_length (c : list Z) (i : Z) :
  List.length (itertools.accumulate c i) = S (List.length c).
Proof.
  revert i; induction c as [|x c IH]; intros i; simpl in *.
  - reflexivity.
  - now rewrite IH.
Qed.

Lemma accumulate_nth (c : list Z) :
  forall (i : Z) (k : nat),
    (k <= List.length c)%nat ->
    nth_error (itertools.accumulate c i) k = Some (i + zsum (firstn k c)).
Proof.
  induction c as [|x c IH]; intros i k Hk.
  - simpl in Hk. assert (k = 0%nat) as -> by lia. simpl. f_equal. lia.
  - destruct k as [|k].
    + simpl. f_equal. lia.
    + simpl in Hk.
      change (nth_error (itertools.accumulate (x :: c) i) (S k))
        with (nth_error (itertools.accumulate c (i + x)) k).
      rewrite IH by lia. simpl. f_equal. lia.
Qed.

Lemma py_getitem_in_range {A} (l : list A) (i : Z) :
  0 <= i < Z.of_nat (List.length l) ->
  py_getitem l i = of_option (nth_error l (Z.to_nat i)) IndexError.
Proof.
  intros Hi. unfold py_getitem.
  destruct (Z.ltb_spec i 0); [lia|].
  destruct (Z.leb_spec 0 i); [|lia].
  destruct (Z.ltb_spec i (Z.of_nat (List.length l))); [|lia].
  reflexivity.
Qed.

(** One axis: both ends of the slice are read off the cumulative
    offsets. *)
Lemma starts_lookup (c : list Z) (i : Z) :
  0 <= i <= Z.of_nat (List.length c) ->
  py_getitem (itertools.accumulate c 0) i = Ok (cum c i).
Proof.
  intros Hi.
  rewrite py_getitem_in_range by (rewrite accumulate_length; lia).
  rewrite accumulate_nth by lia.
  reflexivity.
Qed.

Lemma getitem_zip_init (chunks : list (list Z)) :
  forall idx : list Z,
    Forall in_range (combine idx chunks) ->
    SlicesDep.getitem_zip idx
      (map (fun c => itertools.accumulate c 0) chunks)
    = Ok (map window_of (combine idx chunks)).
Proof.
  induction chunks as [|c chunks IH]; intros [|i idx] Hin; try reflexivity.
  simpl in Hin. inversion Hin as [|? ? Hi Hrest]; subst.
  unfold in_range in Hi; simpl in Hi.
  simpl. rewrite !starts_lookup by lia. simpl.
  rewrite IH by assumption. reflexivity.
Qed.

Lemma numblocks_init (chunks : list (list Z)) :
  SlicesDep.numblocks (SlicesDep.init chunks)
  = map (fun c => Z.of_nat (List.length c)) chunks.
Proof.
  unfold SlicesDep.numblocks, SlicesDep.init; simpl.
  rewrite map_map. apply map_ext. intros c.
  rewrite accumulate_length. lia.
Qed.

Lemma stored_ints_init (chunks : list (list Z)) :
  SlicesDep.stored_ints (SlicesDep.init chunks)
  = list_sum (map (fun c => S (List.length c)) chunks).
Proof.
  unfold SlicesDep.stored_ints, SlicesDep.init; simpl.
  rewrite map_map. f_equal. apply map_ext. intros c.
  apply accumulate_length.
Qed.

End SlicesProperties.

(** C5.  For every sequence of per-axis chunk sizes, the [Slices] built
    from them sends an in-range chunk coordinate to the slices
    [(cum[axis][i], cum[axis][i+1])], one per axis, where [cum] is the
    running sum of the axis's chunk sizes starting at 0; [numblocks] is
    the number of chunks per axis; and the index stores one integer more
    than there are chunks on each axis, a sum over the axes and not a
    product. *)
Theorem Slices_index_spec (chunks : list (list Z)) (idx : list Z) :
  Forall in_range (combine idx chunks) ->
  SlicesDep.getitem (SlicesDep.init chunks) idx
  = Ok (map window_of (combine idx chunks))
  /\ SlicesDep.numblocks (SlicesDep.init chunks)
     = map (fun c => Z.of_nat (List.length c)) chunks
  /\ SlicesDep.stored_ints (SlicesDep.init chunks)
     = list_sum (map (fun c => S (List.length c)) chunks).
Proof.
  intros Hin. split; [|split].
  - unfold SlicesDep.getitem. simpl. now apply getitem_zip_init.
  - apply numblocks_init.
  - apply stored_ints_init.
Qed.

Lemma Slices_index_spec_witness :
  SlicesDep.getitem (SlicesDep.init [[5; 5]; [4; 4; 2]]%Z) [1; 2]%Z
  = Ok [Slice 5 10; Slice 8 10]
  /\ SlicesDep.numblocks (SlicesDep.init [[5; 5]; [4; 4; 2]]%Z) = [2; 3]%Z
  /\ SlicesDep.stored_ints (SlicesDep.init [[5; 5]; [4; 4; 2]]%Z) = 7.
Proof.
  apply (@Slices_index_spec [[5; 5]; [4; 4; 2]]%Z [1; 2]%Z).
  repeat constructor; simpl; lia.
Defined.

(** C6.  Unpacking what [__dask_distributed_pack__] returns gives back an
    index with the same [starts], which therefore answers every lookup as
    the original does; and the packed state is [starts] itself, whatever
    indices are said to be required. *)
Theorem Slices_pack_unpack_roundtrip
  (s : SlicesDep.Slices) (required_indices : option (list (list Z))) :
  SlicesDep.dask_distributed_unpack
    (SlicesDep.dask_distributed_pack s required_indices) = s
  /\ SlicesDep.starts
       (SlicesDep.dask_distributed_unpack
          (SlicesDep.dask_distributed_pack s required_indices))
     = SlicesDep.starts s
  /\ (forall idx,
        SlicesDep.getitem
          (SlicesDep.dask_distributed_unpack
             (SlicesDep.dask_distributed_pack s required_indices)) idx
        = SlicesDep.getitem s idx)
  /\ SlicesDep.dask_distributed_pack s required_indices = SlicesDep.starts s.
Proof.
  destruct s as [sts]. repeat split.
Qed.

(** Packing after unpacking is the identity on states as well. *)
Lemma Slices_unpack_pack (state : list (list Z)) req :
  SlicesDep.dask_distributed_pack (SlicesDep.dask_distributed_unpack state) req
  = state.
Proof. reflexivity. Qed.

(** ** Broadcasting a 0-d array *)

Lemma prod_shape_ones (n : nat) : prod_shape (repeat 1 n) = 1.
Proof. induction n as [|n IH]; simpl; [reflexivity | now rewrite IH]. Qed.

Lemma concat_repeat_repeat {A} (x : A) (p t : nat) :
  List.concat (repeat (repeat x p) t) = repeat x (t * p).
Proof.
  induction t as [|t IH]; simpl.
  - reflexivity.
  - rewrite IH. symmetry. apply repeat_app.
Qed.

Lemma broadcast_data_scalar {A} (x : A) (tgt : list nat) :
  broadcast_data (repeat 1 (List.length tgt)) tgt [x]
  = repeat x (prod_shape tgt).
Proof.
  induction tgt as [|t tgt IH]; simpl.
  - reflexivity.
  - destruct t as [|[|t]].
    + reflexivity.
    + rewrite prod_shape_ones. simpl.
      rewrite IH, app_nil_r, Nat.add_0_r. reflexivity.
    + rewrite IH. apply concat_repeat_repeat.
Qed.

Lemma broadcastable_ones (tgt : list nat) :
  broadcastable (repeat 1 (List.length tgt)) tgt = true.
Proof.
  induction tgt as [|t tgt IH]; simpl.
  - reflexivity.
  - rewrite IH. now rewrite orb_true_r.
Qed.

(** Broadcasting the 0-d array holding [x] gives the constant array. *)
Lemma broadcast_to_scalar {D A} (d : D) (x : A) (shape : list nat) :
  broadcast_to (NDArray d [] [x]) shape = Ok (full d shape x).
Proof.
  unfold broadcast_to, full. simpl.
  rewrite Nat.sub_0_r, app_nil_r, broadcastable_ones, broadcast_data_scalar.
  reflexivity.
Qed.

Lemma full_well_formed {D A} (d : D) (x : A) (shape : list nat) :
  well_formed (full d shape x).
Proof. unfold well_formed, full, nd_size. simpl. apply repeat_length. Qed.

(** ** The window fetch executor *)

Section FetchProperties.
Context `{NP : NumPy} `{RIO : Rasterio} `{RP : !ReaderProtocol}.

(** [np.array(value, dtype)] is the 0-d array of the converted value. *)
Lemma np_array_ok (value : scalar) (dtype : np_dtype) (x : scalar) :
  np_cast value dtype = Some x ->
  np_array value dtype = Ok (NDArray dtype [] [x]).
Proof. intros Hx. unfold np_array. now rewrite Hx. Qed.

Lemma np_array_inv (value : scalar) (dtype : np_dtype) a :
  np_array value dtype = Ok a ->
  exists x, np_cast value dtype = Some x /\ a = NDArray dtype [] [x].
Proof.
  unfold np_array. destruct (np_cast value dtype) as [x|]; simpl.
  - intros [= <-]. now exists x.
  - discriminate.
Qed.

(** The entry carries no data for the window [cw], and the value it
    stands for is [x] in dtype [d]: either it is the 0-d fill array
    [np.array(fill_value, dtype)] itself, or it is a reader whose asset
    window misses [cw] and [x] is the reader's fill value in the
    reader's dtype. *)
Definition fills_with
  (entry : ReaderTableEntry) (cw : Window) (d : np_dtype) (x : scalar)
  : Prop :=
  match entry with
  | entry_array fill_arr => fill_arr = NDArray d [] [x]
  | entry_tuple reader asset_window =>
      intersect cw asset_window = false
      /\ np_cast (reader_fill_value reader) (reader_dtype reader) = Some x
      /\ d = reader_dtype reader
  end.

(** A reader whose answer to [read(window)] does not depend on the
    state of the world in which it is asked. *)
Definition deterministic_reader (reader : Reader) : Prop :=
  forall (w : Window) (world1 world2 : World),
    fst (reader_read reader w world1) = fst (reader_read reader w world2).

Definition deterministic_entry (entry : ReaderTableEntry) : Prop :=
  match entry with
  | entry_tuple reader _ => deterministic_reader reader
  | entry_array _ => True
  end.

Ltac run_fetch :=
  unfold fetch_raster_window, bind, assert, lift, ret, raise.

(** C1.  When the entry is a fill array, or a (Reader, asset Window)
    pair whose asset window does not intersect the requested window,
    [fetch_raster_window] returns the fill value broadcast to
    [(1, 1, rows, cols)] of the requested window: a constant array of
    exactly that shape.  Nothing is read. *)
Theorem fetch_raster_window_fill
  (reader_entry : ndarray np_dtype ReaderTableEntry)
  (entry : ReaderTableEntry) (rows cols : slice) (cw : Window)
  (d : np_dtype) (x : scalar) (world : World) :
  nd_size reader_entry = 1 ->
  nd_data reader_entry = [entry] ->
  from_slices rows cols = Some cw ->
  fills_with entry cw d x ->
  fetch_raster_window reader_entry [rows; cols] world
  = (Ok (NDArray d
           [1; 1; fst (window_shape cw); snd (window_shape cw)]
           (repeat x (fst (window_shape cw) * snd (window_shape cw)))),
     world).
Proof.
  intros Hsize Hdata Hcw Hfill.
  assert (Hfull :
    full d (block_shape cw) x
    = NDArray d [1; 1; fst (window_shape cw); snd (window_shape cw)]
        (repeat x (fst (window_shape cw) * snd (window_shape cw)))).
  { unfold full, block_shape. simpl. do 2 f_equal. lia. }
  run_fetch. simpl. rewrite Hsize. simpl.
  unfold nd_item. rewrite Hdata, Hcw. simpl.
  destruct entry as [reader asset_window | fill_arr]; simpl in Hfill.
  - destruct Hfill as (Hmiss & Hcast & ->).
    rewrite Hmiss, (np_array_ok _ _ Hcast), broadcast_to_scalar.
    now rewrite Hfull.
  - subst fill_arr. rewrite broadcast_to_scalar. now rewrite Hfull.
Qed.

(** C2.  When the entry is a (Reader, asset Window) pair whose asset
    window intersects the requested window, [fetch_raster_window] is
    the reader's [read] of the requested window followed by the two new
    leading axes; so when [read] returns a block of the window's shape,
    the result has shape [(1, 1, rows, cols)] and the same pixels. *)
Theorem fetch_raster_window_reads
  (reader_entry : ndarray np_dtype ReaderTableEntry)
  (reader : Reader) (asset_window : Window) (rows cols : slice)
  (cw : Window) (world : World) :
  nd_size reader_entry = 1 ->
  nd_data reader_entry = [entry_tuple reader asset_window] ->
  from_slices rows cols = Some cw ->
  intersect cw asset_window = true ->
  fetch_raster_window reader_entry [rows; cols] world
  = bind (read reader cw) (fun data => ret (expand_dims2 data)) world
  /\ forall data world',
       reader_read reader cw world = (inr data, world') ->
       nd_shape data = [fst (window_shape cw); snd (window_shape cw)] ->
       exists out,
         fetch_raster_window reader_entry [rows; cols] world
         = (Ok out, world')
         /\ nd_shape out
            = [1; 1; fst (window_shape cw); snd (window_shape cw)]
         /\ nd_data out = nd_data data
         /\ nd_dtype out = nd_dtype data.
Proof.
  intros Hsize Hdata Hcw Hhit.
  assert (Hrun :
    fetch_raster_window reader_entry [rows; cols] world
    = bind (read reader cw) (fun data => ret (expand_dims2 data)) world).
  { run_fetch. simpl. rewrite Hsize. simpl.
    unfold nd_item. rewrite Hdata, Hcw. simpl. now rewrite Hhit. }
  split; [exact Hrun|].
  intros data world' Hread Hshape.
  exists (expand_dims2 data). rewrite Hrun.
  unfold bind, read, ret. rewrite Hread. simpl.
  now rewrite Hshape.
Qed.

(** X4.  If the reader raises, so does the fetch, with the same exception
    and in the world the failed read left: [fetch_raster_window] has no
    handler of its own and never turns a failed read into fill values. *)
Lemma fetch_raster_window_read_raises
  (reader_entry : ndarray np_dtype ReaderTableEntry)
  (reader : Reader) (asset_window : Window) (rows cols : slice)
  (cw : Window) (world world' : World) (cls : string) :
  nd_size reader_entry = 1 ->
  nd_data reader_entry = [entry_tuple reader asset_window] ->
  from_slices rows cols = Some cw ->
  intersect cw asset_window = true ->
  reader_read reader cw world = (inl cls, world') ->
  fetch_raster_window reader_entry [rows; cols] world
  = (Err (ReaderException cls), world').
Proof.
  intros Hsize Hdata Hcw Hhit Hread.
  run_fetch. simpl. rewrite Hsize. simpl.
  unfold nd_item. rewrite Hdata, Hcw. simpl. rewrite Hhit.
  unfold read. now rewrite Hread.
Qed.

(** C8.  With readers whose [read] is a function of the window alone,
    [fetch_raster_window] returns the same array (or raises the same
    exception) for the same entry and slices in any two states of the
    world; in particular when it is invoked a second time, in the world
    the first invocation left. *)
Theorem fetch_raster_window_deterministic
  (reader_entry : ndarray np_dtype ReaderTableEntry)
  (slices : list slice) :
  Forall deterministic_entry (nd_data reader_entry) ->
  (forall world1 world2 : World,
      fst (fetch_raster_window reader_entry slices world1)
      = fst (fetch_raster_window reader_entry slices world2))
  /\ (forall world : World,
        fst (fetch_raster_window reader_entry slices
               (snd (fetch_raster_window reader_entry slices world)))
        = fst (fetch_raster_window reader_entry slices world)).
Proof.
  intros Hdet.
  assert (Hany : forall world1 world2 : World,
    fst (fetch_raster_window reader_entry slices world1)
    = fst (fetch_raster_window reader_entry slices world2)).
  { intros world1 world2. run_fetch.
    destruct (List.length slices =? 2); [|reflexivity].
    destruct (nd_size reader_entry =? 1); [|reflexivity].
    unfold nd_item.
    destruct (nd_data reader_entry) as [|entry [|? ?]]; try reflexivity.
    destruct (from_slices_star slices) as [cw|e]; [|reflexivity].
    inversion Hdet as [|? ? Hentry _]; subst.
    destruct entry as [reader asset_window | fill_arr].
    - destruct (intersect cw asset_window).
      + unfold read. simpl in Hentry.
        specialize (Hentry cw world1 world2).
        destruct (reader_read reader cw world1) as [[cls1|data1] w1].
        * destruct (reader_read reader cw world2) as [[cls2|data2] w2];
            simpl in Hentry; [now inversion Hentry | discriminate].
        * destruct (reader_read reader cw world2) as [[cls2|data2] w2];
            simpl in Hentry; [discriminate | now inversion Hentry].
      + destruct (np_array (reader_fill_value reader) (reader_dtype reader));
          reflexivity.
    - reflexivity. }
  split; [exact Hany|].
  intros world. apply Hany.
Qed.

(** C10.  [fetch_raster_window] raises [AssertionError], before doing
    anything else, when it is not given exactly two slices or when the
    reader-entry array does not hold exactly one cell; given two slices
    and one cell it never raises [AssertionError]. *)
Theorem fetch_raster_window_assertions
  (reader_entry : ndarray np_dtype ReaderTableEntry)
  (slices : list slice) (world : World) :
  (List.length slices <> 2 \/ nd_size reader_entry <> 1 ->
   fetch_raster_window reader_entry slices world
   = (Err AssertionError, world))
  /\ (List.length slices = 2 -> nd_size reader_entry = 1 ->
      fst (fetch_raster_window reader_entry slices world)
      <> Err AssertionError).
Proof.
  split.
  - intros Hbad. run_fetch.
    destruct (Nat.eqb_spec (List.length slices) 2) as [Hlen|Hlen];
      [|reflexivity].
    destruct (Nat.eqb_spec (nd_size reader_entry) 1) as [Hsz|Hsz];
      [|reflexivity].
    destruct Hbad; contradiction.
  - intros Hlen Hsz. run_fetch. rewrite Hlen, Hsz. simpl.
    unfold nd_item.
    destruct (nd_data reader_entry) as [|entry [|? ?]];
      try (simpl; discriminate).
    unfold from_slices_star.
    destruct slices as [|rows [|cols [|? ?]]]; try discriminate.
    destruct (from_slices rows cols) as [cw|]; [|simpl; discriminate].
    simpl.
    destruct entry as [reader asset_window | fill_arr].
    + destruct (intersect cw asset_window).
      * unfold read.
        destruct (reader_read reader cw world) as [[cls|data] w];
          simpl; discriminate.
      * unfold np_array.
        destruct (np_cast (reader_fill_value reader) (reader_dtype reader));
          simpl; [|discriminate].
        unfold broadcast_to.
        repeat match goal with
               | |- context [if ?b then _ else _] => destruct b
               end; simpl; discriminate.
    + unfold broadcast_to.
      repeat match goal with
             | |- context [if ?b then _ else _] => destruct b
             end; simpl; discriminate.
Qed.

End FetchProperties.

(** The executor on the concrete world. *)

Definition one_cell
  (entry : @ReaderTableEntry Scenario.numpy Scenario.rasterio Scenario.readers)
  : ndarray Scenario.dt ReaderTableEntry :=
  NDArray Scenario.obj [1; 1] [entry].

Definition tif_elsewhere : ReaderTableEntry :=
  entry_tuple
    {| Scenario.tif_url := "a.tif"; Scenario.tif_fill := 3%Z;
       Scenario.tif_dtype := Scenario.uint8 |}
    {| Scenario.col_off := 20; Scenario.row_off := (-20);
       Scenario.width := 10; Scenario.height := 10 |}%Z.

Definition tif_covering : ReaderTableEntry :=
  entry_tuple
    {| Scenario.tif_url := "a.tif"; Scenario.tif_fill := 3%Z;
       Scenario.tif_dtype := Scenario.uint8 |}
    {| Scenario.col_off := 0; Scenario.row_off := 0;
       Scenario.width := 10; Scenario.height := 10 |}%Z.

Lemma fetch_raster_window_fill_witness :
  fetch_raster_window (one_cell tif_elsewhere) [Slice 0 5; Slice 5 10] 0
  = (Ok (NDArray Scenario.uint8 [1; 1; 5; 5] (repeat 3%Z 25)), 0).
Proof.
  apply (@fetch_raster_window_fill Scenario.numpy Scenario.rasterio Scenario.readers (one_cell tif_elsewhere)
           tif_elsewhere (Slice 0 5) (Slice 5 10)
           {| Scenario.col_off := 5; Scenario.row_off := 0;
              Scenario.width := 5; Scenario.height := 5 |}%Z
           Scenario.uint8 3%Z 0).
  - reflexivity.
  - reflexivity.
  - reflexivity.
  - simpl. repeat split; reflexivity.
Defined.

Example fetch_fill_array :
  fetch_raster_window
    (one_cell (entry_array (NDArray Scenario.uint8 [] [3%Z])))
    [Slice 0 2; Slice 0 3] 0
  = (Ok (NDArray Scenario.uint8 [1; 1; 2; 3] (repeat 3%Z 6)), 0).
Proof. reflexivity. Qed.

Lemma fetch_raster_window_reads_witness :
  exists out,
    fetch_raster_window (one_cell tif_covering) [Slice 0 5; Slice 5 10] 0
    = (Ok out, 1)
    /\ nd_shape out = [1; 1; 5; 5]
    /\ nd_data out = repeat 7%Z 25
    /\ nd_dtype out = Scenario.uint8.
Proof.
  apply (proj2
           (@fetch_raster_window_reads Scenario.numpy Scenario.rasterio Scenario.readers (one_cell tif_covering)
              {| Scenario.tif_url := "a.tif"; Scenario.tif_fill := 3%Z;
                 Scenario.tif_dtype := Scenario.uint8 |}
              {| Scenario.col_off := 0; Scenario.row_off := 0;
                 Scenario.width := 10; Scenario.height := 10 |}%Z
              (Slice 0 5) (Slice 5 10)
              {| Scenario.col_off := 5; Scenario.row_off := 0;
                 Scenario.width := 5; Scenario.height := 5 |}%Z
              0 eq_refl eq_refl eq_refl eq_refl)
           (full Scenario.uint8 [5; 5] 7%Z) 1).
  - reflexivity.
  - reflexivity.
Defined.

Lemma fetch_raster_window_deterministic_witness :
  fst (fetch_raster_window (one_cell tif_covering) [Slice 0 5; Slice 5 10] 0)
  = fst (fetch_raster_window (one_cell tif_covering) [Slice 0 5; Slice 5 10]
           41)
  /\ fst (fetch_raster_window (one_cell tif_covering)
            [Slice 0 5; Slice 5 10]
            (snd (fetch_raster_window (one_cell tif_covering)
                    [Slice 0 5; Slice 5 10] 0)))
     = fst (fetch_raster_window (one_cell tif_covering)
              [Slice 0 5; Slice 5 10] 0).
Proof.
  assert (Hdet : Forall deterministic_entry (nd_data (one_cell tif_covering))).
  { repeat constructor. }
  destruct (@fetch_raster_window_deterministic Scenario.numpy Scenario.rasterio Scenario.readers
              (one_cell tif_covering) [Slice 0 5; Slice 5 10] Hdet)
    as [Hany Hagain].
  split; [apply (Hany 0 41) | apply (Hagain 0)].
Defined.

(** The world does change between the two invocations: the reader is
    asked twice. *)
Example fetch_twice_reads_twice :
  snd (fetch_raster_window (one_cell tif_covering) [Slice 0 5; Slice 5 10]
         (snd (fetch_raster_window (one_cell tif_covering)
                 [Slice 0 5; Slice 5 10] 0)))
  = 2.
Proof. reflexivity. Qed.

Lemma fetch_raster_window_assertions_witness :
  fetch_raster_window (one_cell tif_covering) [Slice 0 5] 0
  = (Err AssertionError, 0)
  /\ fetch_raster_window
       (NDArray Scenario.obj [2; 1] [tif_covering; tif_elsewhere])
       [Slice 0 5; Slice 5 10] 0
     = (Err AssertionError, 0)
  /\ fst (fetch_raster_window (one_cell tif_covering)
            [Slice 0 5; Slice 5 10] 0)
     <> Err AssertionError.
Proof.
  split; [|split].
  - apply (proj1 (@fetch_raster_window_assertions Scenario.numpy Scenario.rasterio Scenario.readers
                    (one_cell tif_covering) [Slice 0 5] 0)).
    left. simpl. lia.
  - apply (proj1 (@fetch_raster_window_assertions Scenario.numpy Scenario.rasterio Scenario.readers
                    (NDArray Scenario.obj [2; 1] [tif_covering; tif_elsewhere])
                    [Slice 0 5; Slice 5 10] 0)).
    right. unfold nd_size. simpl. lia.
  - apply (proj2 (@fetch_raster_window_assertions Scenario.numpy Scenario.rasterio Scenario.readers
                    (one_cell tif_covering) [Slice 0 5; Slice 5 10] 0));
      reflexivity.
Defined.

(** ** The reader-table builder *)

Lemma mapR_Forall2 {A B} (f : A -> result B) (R : A -> B -> Prop)
  (l : list A) :
  Forall (fun x => exists y, f x = Ok y /\ R x y) l ->
  exists ys, mapR f l = Ok ys /\ Forall2 R l ys.
Proof.
  induction 1 as [|x l (y & Hy & HR) _ (ys & Hys & HRs)]; simpl.
  - exists []. split; [reflexivity | constructor].
  - exists (y :: ys). rewrite Hy, Hys. split; [reflexivity | now constructor].
Qed.

Lemma mapR_raises {A B} (f : A -> result B) (l : list A) :
  Exists (fun x => exists e, f x = Err e) l ->
  exists e, mapR f l = Err e.
Proof.
  induction 1 as [x l (e & He) | x l _ (e & He)]; simpl.
  - exists e. now rewrite He.
  - destruct (f x) as [y|e']; simpl.
    + exists e. now rewrite He.
    + now exists e'.
Qed.

Lemma mapR_total {A B} (f : A -> result B) (g : A -> B) (l : list A) :
  (forall x, f x = Ok (g x)) -> mapR f l = Ok (map g l).
Proof.
  intros Hfg. induction l as [|x l IH]; simpl.
  - reflexivity.
  - now rewrite Hfg, IH.
Qed.

Section BuilderProperties.
Context `{NP : NumPy} `{RIO : Rasterio}.
Context `{RS : !RasterSpecs} `{RP : !ReaderProtocol}.

Variables (spec : RasterSpec) (resampling : Resampling) (dtype : np_dtype).
Variables (fill_value : scalar) (rescale : bool).
Variables (gdal_env : option LayeredEnv) (errors_as_nodata : list string).
Variable reader : ReaderType.

(** The pixel-space window of a cell's bounds under the spec's
    transform, with [precision=0.0]. *)
Definition bounds_window (cell : AssetEntry) : option Window :=
  let '(west, south, east, north) := bounds cell in
  from_bounds west south east north (spec_transform spec) 0%Q.

(** Neither NumPy nor rasterio raises on this cell. *)
Definition convertible (cell : AssetEntry) : Prop :=
  match url cell with
  | None => np_cast fill_value dtype <> None
  | Some _ => bounds_window cell <> None
  end.

(** The entry the builder is to make for a cell. *)
Definition entry_for (cell : AssetEntry) (entry : ReaderTableEntry) : Prop :=
  match url cell with
  | None =>
      exists x,
        np_cast fill_value dtype = Some x
        /\ entry = entry_array (NDArray dtype [] [x])
  | Some u =>
      exists w,
        bounds_window cell = Some w
        /\ entry =
             entry_tuple
               (reader u spec resampling dtype fill_value rescale gdal_env
                  errors_as_nodata)
               w
  end.

Lemma reader_table_entry_ok (cell : AssetEntry) :
  convertible cell ->
  exists entry,
    reader_table_entry spec resampling dtype fill_value rescale gdal_env
      errors_as_nodata reader cell = Ok entry
    /\ entry_for cell entry.
Proof.
  unfold convertible, entry_for, reader_table_entry, bounds_window, np_array.
  destruct (url cell) as [u|].
  - destruct (bounds cell) as [[[west south] east] north].
    destruct (from_bounds west south east north (spec_transform spec) 0)
      as [w|]; [|congruence].
    intros _. simpl. eexists. split; [reflexivity|]. now exists w.
  - destruct (np_cast fill_value dtype) as [x|]; [|congruence].
    intros _. simpl. eexists. split; [reflexivity|]. now exists x.
Qed.

Lemma reader_table_entry_raises (cell : AssetEntry) :
  ~ convertible cell ->
  exists e,
    reader_table_entry spec resampling dtype fill_value rescale gdal_env
      errors_as_nodata reader cell = Err e.
Proof.
  unfold convertible, reader_table_entry, bounds_window, np_array.
  destruct (url cell) as [u|].
  - destruct (bounds cell) as [[[west south] east] north].
    destruct (from_bounds west south east north (spec_transform spec) 0)
      as [w|]; simpl.
    + intros Hn. exfalso. apply Hn. discriminate.
    + intros _. now eexists.
  - destruct (np_cast fill_value dtype) as [x|]; simpl.
    + intros Hn. exfalso. apply Hn. discriminate.
    + intros _. now eexists.
Qed.

(** C4.  For every asset table on whose cells the conversions succeed,
    [asset_table_to_reader_and_window] returns an object array of the
    table's shape in which the entry at each cell is: for a cell without
    URL, the 0-d array of [fill_value] converted to the output dtype;
    for a cell with a URL, the pair of the reader instantiated with that
    URL and the shared configuration, and the window computed from the
    cell's bounds by the spec's transform with [precision=0.0]. *)
Theorem asset_table_to_reader_and_window_spec
  (asset_table : ndarray np_dtype AssetEntry) :
  Forall convertible (nd_data asset_table) ->
  exists entries,
    asset_table_to_reader_and_window asset_table spec resampling dtype
      fill_value rescale gdal_env errors_as_nodata reader
    = Ok (NDArray object_ (nd_shape asset_table) entries)
    /\ Forall2 entry_for (nd_data asset_table) entries.
Proof.
  intros Hconv.
  destruct (@mapR_Forall2 _ _
              (reader_table_entry spec resampling dtype fill_value rescale
                 gdal_env errors_as_nodata reader)
              entry_for (nd_data asset_table)) as (entries & Hrun & Hall).
  { eapply Forall_impl; [|exact Hconv].
    intros cell Hcell. now apply reader_table_entry_ok. }
  exists entries. unfold asset_table_to_reader_and_window.
  rewrite Hrun. now split.
Qed.

(** A conversion that raises on some cell makes the whole call raise:
    no cell is silently skipped. *)
Lemma asset_table_to_reader_and_window_raises
  (asset_table : ndarray np_dtype AssetEntry) :
  Exists (fun cell => ~ convertible cell) (nd_data asset_table) ->
  exists e,
    asset_table_to_reader_and_window asset_table spec resampling dtype
      fill_value rescale gdal_env errors_as_nodata reader
    = Err e.
Proof.
  intros Hbad.
  destruct (@mapR_raises _ _
              (reader_table_entry spec resampling dtype fill_value rescale
                 gdal_env errors_as_nodata reader)
              (nd_data asset_table)) as (e & He).
  { eapply Exists_impl; [|exact Hbad].
    intros cell Hcell. now apply reader_table_entry_raises. }
  exists e. unfold asset_table_to_reader_and_window. now rewrite He.
Qed.

(** The reader table is well formed when the asset table is. *)
Lemma reader_table_well_formed
  (asset_table : ndarray np_dtype AssetEntry) reader_table :
  well_formed asset_table ->
  asset_table_to_reader_and_window asset_table spec resampling dtype
    fill_value rescale gdal_env errors_as_nodata reader
  = Ok reader_table ->
  well_formed reader_table /\ nd_shape reader_table = nd_shape asset_table.
Proof.
  unfold asset_table_to_reader_and_window, well_formed, nd_size.
  intros Hwf Hrun.
  destruct (mapR _ (nd_data asset_table)) as [entries|e] eqn:Hmap;
    simpl in Hrun; [|discriminate].
  injection Hrun as <-. simpl. split; [|reflexivity].
  rewrite <- Hwf. clear Hwf.
  revert entries Hmap.
  induction (nd_data asset_table) as [|cell cells IH]; simpl; intros entries.
  - now intros [= <-].
  - destruct (reader_table_entry _ _ _ _ _ _ _ _ cell); simpl;
      [|discriminate].
    destruct (mapR _ cells) as [ys|]; simpl; [|discriminate].
    intros [= <-]. simpl. f_equal. now apply IH.
Qed.

End BuilderProperties.

(** ** Chunk normalisation *)

Section ChunkProperties.

Local Open Scope Z_scope.

(** The chunks dask gives an axis of length [d] for [chunks=1]. *)
Definition unit_chunks (d : nat) : list Z :=
  if (d =? 0)%nat then [0] else repeat 1 d.

(** The chunks dask gives an axis of length [d] for a positive chunk
    size [c]. *)
Definition axis_chunks (c : Z) (d : nat) : list Z :=
  if (d =? 0)%nat then [0]
  else repeat c (Z.to_nat (Z.of_nat d / c))
       ++ (if Z.of_nat d mod c =? 0 then [] else [Z.of_nat d mod c]).

(** Chunks that cut an axis of length [d] into blocks of [c], the last
    one possibly smaller. *)
Definition regular_chunks (c : Z) (d : nat) (l : list Z) : Prop :=
  zsum l = Z.of_nat d
  /\ Forall (fun x => 0 <= x <= c) l
  /\ (forall k : nat, (S k < List.length l)%nat -> nth k l 0 = c).

Lemma normalize_axis_pos (c : Z) (d : nat) :
  1 <= c < 2 ^ 64 -> dask.normalize_axis c d = Ok (axis_chunks c d).
Proof.
  intros Hc. unfold dask.normalize_axis, axis_chunks.
  destruct (Z.eqb_spec c (-1)); [lia|].
  destruct (Z.leb_spec (2 ^ 64) c); [lia|].
  destruct (Nat.eqb_spec d 0) as [->|Hd]; [reflexivity|].
  destruct (Z.eqb_spec (Z.of_nat d) 0); [lia|].
  destruct (Z.eqb_spec c 0); [lia|].
  destruct (Z.ltb_spec c 0); [lia|].
  reflexivity.
Qed.

Lemma axis_chunks_one (d : nat) : axis_chunks 1 d = unit_chunks d.
Proof.
  unfold axis_chunks, unit_chunks.
  destruct (d =? 0)%nat; [reflexivity|].
  rewrite Z.div_1_r, Z.mod_1_r, Nat2Z.id. simpl. apply app_nil_r.
Qed.

Lemma normalize_chunks_pos (c : Z) (shape : list nat) :
  1 <= c < 2 ^ 64 ->
  dask.normalize_chunks c shape = Ok (map (axis_chunks c) shape).
Proof.
  intros Hc. unfold dask.normalize_chunks. apply mapR_total.
  intros d. now apply normalize_axis_pos.
Qed.

Lemma normalize_chunks_one (shape : list nat) :
  dask.normalize_chunks 1 shape = Ok (map unit_chunks shape).
Proof.
  rewrite normalize_chunks_pos by lia. f_equal.
  apply map_ext. exact axis_chunks_one.
Qed.

Lemma zsum_app (l1 l2 : list Z) : zsum (l1 ++ l2) = zsum l1 + zsum l2.
Proof. induction l1 as [|x l1 IH]; simpl; [reflexivity | rewrite IH; lia]. Qed.

Lemma zsum_repeat (c : Z) (n : nat) : zsum (repeat c n) = Z.of_nat n * c.
Proof. induction n as [|n IH]; simpl zsum; [reflexivity | rewrite IH; lia]. Qed.

Lemma axis_chunks_regular (c : Z) (d : nat) :
  1 <= c -> regular_chunks c d (axis_chunks c d).
Proof.
  intros Hc. unfold regular_chunks, axis_chunks.
  destruct (Nat.eqb_spec d 0) as [->|Hd].
  { split; [reflexivity|]. split.
    - constructor; [lia | constructor].
    - simpl. intros k Hk. lia. }
  pose proof (Z.div_mod (Z.of_nat d) c ltac:(lia)) as Hdm.
  pose proof (Z.mod_pos_bound (Z.of_nat d) c ltac:(lia)) as Hmod.
  assert (Hq : 0 <= Z.of_nat d / c) by (apply Z.div_pos; lia).
  split; [|split].
  - rewrite zsum_app, zsum_repeat, Z2Nat.id by lia.
    destruct (Z.eqb_spec (Z.of_nat d mod c) 0); simpl; lia.
  - apply Forall_app. split.
    + apply Forall_forall. intros x Hx. apply repeat_spec in Hx. lia.
    + destruct (Z.eqb_spec (Z.of_nat d mod c) 0); repeat constructor; lia.
  - intros k Hk. rewrite length_app, repeat_length in Hk.
    assert (Hin : (k < Z.to_nat (Z.of_nat d / c))%nat).
    { destruct (Z.of_nat d mod c =? 0); simpl in Hk; lia. }
    rewrite app_nth1 by (rewrite repeat_length; exact Hin).
    apply nth_repeat_lt. exact Hin.
Qed.

Lemma axis_chunks_nonempty (c : Z) (d : nat) :
  1 <= c -> (1 <= List.length (axis_chunks c d))%nat.
Proof.
  intros Hc. unfold axis_chunks.
  destruct (Nat.eqb_spec d 0) as [->|Hd]; [simpl; lia|].
  rewrite length_app, repeat_length.
  pose proof (Z.div_mod (Z.of_nat d) c ltac:(lia)) as Hdm.
  pose proof (Z.mod_pos_bound (Z.of_nat d) c ltac:(lia)) as Hmod.
  destruct (Z.eqb_spec (Z.of_nat d mod c) 0) as [H0|H0]; simpl; [|lia].
  assert (0 < Z.of_nat d / c) by nia. lia.
Qed.

Lemma unit_chunks_length (d : nat) :
  List.length (unit_chunks d) = Nat.max d 1.
Proof.
  unfold unit_chunks. destruct (Nat.eqb_spec d 0) as [->|Hd].
  - reflexivity.
  - rewrite repeat_length. lia.
Qed.

Lemma unit_chunks_nonempty_axis (d : nat) :
  (1 <= d)%nat -> unit_chunks d = repeat 1 d.
Proof.
  intros Hd. unfold unit_chunks.
  destruct (Nat.eqb_spec d 0); [lia | reflexivity].
Qed.

Lemma unit_chunks_empty_axis : unit_chunks 0 = [0].
Proof. reflexivity. Qed.

(** ** Block keys and their slices *)

Lemma product_length {A} (ls : list (list A)) :
  List.length (itertools.product ls)
  = prod_shape (map (@List.length A) ls).
Proof.
  induction ls as [|l ls IH]; simpl.
  - reflexivity.
  - rewrite <- IH. clear IH.
    induction l as [|x l IHl]; simpl.
    + reflexivity.
    + rewrite length_app, length_map, IHl. reflexivity.
Qed.

Lemma axis_slices_length (c : list Z) :
  List.length (dask.axis_slices c) = List.length c.
Proof.
  unfold dask.axis_slices.
  rewrite length_map, length_combine.
  destruct (itertools.accumulate c 0) as [|s ss] eqn:Hacc.
  - destruct c; discriminate.
  - pose proof (accumulate_length c 0) as Hlen.
    rewrite Hacc in Hlen. simpl tl. simpl List.length in Hlen.
    injection Hlen as Hlen. rewrite <- Hlen.
    apply Nat.min_r. simpl. apply Nat.le_succ_diag_r.
Qed.

Lemma block_tasks_length (cs : list (list Z)) :
  List.length (combine (dask.block_keys cs) (dask.slices_from_chunks cs))
  = prod_shape (map (@List.length Z) cs).
Proof.
  rewrite length_combine. unfold dask.block_keys, dask.slices_from_chunks.
  rewrite !product_length, !map_map.
  assert (Heq :
    map (fun c => List.length (seq 0 (List.length c))) cs
    = map (@List.length Z) cs).
  { apply map_ext. intros c. apply length_seq. }
  assert (Heq' :
    map (fun c => List.length (dask.axis_slices c)) cs
    = map (@List.length Z) cs).
  { apply map_ext. intros c. apply axis_slices_length. }
  rewrite Heq, Heq'. apply Nat.min_id.
Qed.

End ChunkProperties.

(** ** Graph construction *)

Section GraphProperties.
Context `{NP : NumPy} `{RIO : Rasterio}.
Context `{RS : !RasterSpecs} `{RP : !ReaderProtocol}.
Context `{TK : dask.Tokenize}.

Variables (asset_table : ndarray np_dtype AssetEntry) (spec : RasterSpec).
Variables (chunksize : Z) (resampling : Resampling) (dtype : np_dtype).
Variables (fill_value : scalar) (rescale : bool) (reader : ReaderType).
Variables (gdal_env : option LayeredEnv).
Variable errors_as_nodata : option (list string).

(** The three layers [items_to_dask] creates, in the order it creates
    them. *)
Definition table_chunks : list (list Z) :=
  map unit_chunks (nd_shape asset_table).

Definition table_name : string :=
  ("asset-table-" ++ dask.tokenize asset_table)%string.

Definition table_layer : Layer :=
  MaterializedLayer table_name asset_table
    (combine (dask.block_keys table_chunks)
       (dask.slices_from_chunks table_chunks)).

Definition open_func : BlockFunc :=
  f_asset_table_to_reader_and_window spec resampling dtype fill_value
    rescale gdal_env (or_empty errors_as_nodata) reader.

Definition readers_name : string :=
  ("asset_table_to_reader_and_window" ++ "-"
   ++ dask.tokenize (table_name, open_func))%string.

Definition readers_layer : Layer :=
  BlockwiseLayer readers_name open_func "tb"
    [(arg_array table_name (map (@List.length Z) table_chunks), "tb")]
    [("fuse", false)].

Definition fetch_name (chunks_yx : list (list Z)) : string :=
  ("fetch_raster_window-"
   ++ dask.tokenize (readers_name, (table_chunks ++ chunks_yx)%list))%string.

Definition fetch_layer (chunks_yx : list (list Z)) : Layer :=
  BlockwiseLayer (fetch_name chunks_yx) f_fetch_raster_window "tbyx"
    [(arg_array readers_name (map (@List.length Z) table_chunks), "tb");
     (arg_dep (SlicesDep.init chunks_yx), "yx")]
    [].

Definition rasters (chunks_yx : list (list Z)) : Array :=
  {| dask_graph := [table_layer; readers_layer; fetch_layer chunks_yx];
     array_name := fetch_name chunks_yx;
     chunks := table_chunks ++ chunks_yx;
     meta_dtype := dtype |}.

Definition run_items_to_dask : Build Array :=
  items_to_dask asset_table spec chunksize resampling dtype fill_value
    rescale reader gdal_env errors_as_nodata.

(** What a call does once the fill value has passed the check. *)
Lemma items_to_dask_run (created : list Layer) :
  can_cast fill_value dtype = true ->
  run_items_to_dask created
  = match
      dask.normalize_chunks chunksize
        [fst (spec_shape spec); snd (spec_shape spec)]
    with
    | Ok chunks_yx =>
        (Ok (rasters chunks_yx),
         created ++ [table_layer; readers_layer; fetch_layer chunks_yx])
    | Err e => (Err e, created ++ [table_layer; readers_layer])
    end.
Proof.
  intros Hcast. unfold run_items_to_dask, items_to_dask.
  rewrite Hcast. simpl negb. cbv iota.
  unfold from_array, map_blocks, blockwise, new_layer, bind, lift, ret.
  rewrite normalize_chunks_one.
  destruct (dask.normalize_chunks chunksize _) as [chunks_yx|e].
  - unfold rasters, from_collections. simpl.
    rewrite <- !app_assoc. reflexivity.
  - simpl. rewrite <- !app_assoc. reflexivity.
Qed.

Lemma items_to_dask_ok (created : list Layer) :
  can_cast fill_value dtype = true ->
  (1 <= chunksize < 2 ^ 64)%Z ->
  run_items_to_dask created
  = (Ok (rasters
           [axis_chunks chunksize (fst (spec_shape spec));
            axis_chunks chunksize (snd (spec_shape spec))]),
     created
     ++ dask_graph
          (rasters
             [axis_chunks chunksize (fst (spec_shape spec));
              axis_chunks chunksize (snd (spec_shape spec))])).
Proof.
  intros Hcast Hc. rewrite items_to_dask_run by assumption.
  rewrite normalize_chunks_pos by assumption. reflexivity.
Qed.

(** C3.  When [np.can_cast] rejects the fill value for the output
    dtype, [items_to_dask] raises [ValueError] and not one layer has
    been created; when it accepts the fill value, the call goes on to
    create the asset-table layer and the reader-table layer: the check
    is passed and the construction under way, whatever the chunk size
    makes of the rest of it. *)
Theorem items_to_dask_validates_fill_value (created : list Layer) :
  (can_cast fill_value dtype = false ->
   run_items_to_dask created = (Err ValueError, created))
  /\ (can_cast fill_value dtype = true ->
      exists r rest,
        run_items_to_dask created
        = (r, created ++ table_layer :: readers_layer :: rest)).
Proof.
  split.
  - intros Hcast. unfold run_items_to_dask, items_to_dask.
    now rewrite Hcast.
  - intros Hcast. rewrite items_to_dask_run by assumption.
    destruct (dask.normalize_chunks chunksize _) as [chunks_yx|e].
    + now exists (Ok (rasters chunks_yx)), [fetch_layer chunks_yx].
    + now exists (Err e), [].
Qed.

(** *** Chunk structure *)

(** Every chunk along the first [n] axes has size 1. *)
Definition unit_leading_chunks (n : nat) (arr : Array) : Prop :=
  Forall (Forall (fun c => c = 1%Z)) (firstn n (chunks arr)).

Lemma table_chunks_nonempty_axes :
  Forall (fun d => 1 <= d) (nd_shape asset_table) ->
  table_chunks = map (fun d => repeat 1%Z d) (nd_shape asset_table).
Proof.
  unfold table_chunks. intros Hpos.
  apply map_ext_in. intros d Hd.
  apply unit_chunks_nonempty_axis.
  rewrite Forall_forall in Hpos. now apply Hpos.
Qed.

(** An empty axis of the asset table is one chunk of size 0 in the
    array. *)
Lemma items_to_dask_empty_axis (created : list Layer) arr created' :
  run_items_to_dask created = (Ok arr, created') ->
  In 0 (nd_shape asset_table) ->
  In [0%Z] (firstn (List.length (nd_shape asset_table)) (chunks arr)).
Proof.
  intros Hrun Hin.
  assert (Hcast : can_cast fill_value dtype = true).
  { destruct (can_cast fill_value dtype) eqn:Hc; [reflexivity|].
    unfold run_items_to_dask, items_to_dask in Hrun.
    rewrite Hc in Hrun. discriminate. }
  rewrite items_to_dask_run in Hrun by assumption.
  destruct (dask.normalize_chunks chunksize _) as [chunks_yx|e];
    [|discriminate].
  injection Hrun as <- _. unfold rasters. simpl.
  rewrite firstn_app.
  replace (List.length (nd_shape asset_table) - List.length table_chunks)
    with 0 by (unfold table_chunks; rewrite length_map; lia).
  simpl. rewrite app_nil_r.
  rewrite firstn_all2 by (unfold table_chunks; rewrite length_map; lia).
  unfold table_chunks. apply in_map_iff. exists 0. now split.
Qed.

End GraphProperties.

(** ** The builder and the graph on the concrete world *)

Lemma asset_table_to_reader_and_window_spec_witness :
  exists entries,
    asset_table_to_reader_and_window
      (Scenario.table_of [Scenario.covering; Scenario.absent] [1; 2])
      (10, 10) tt Scenario.uint8 3%Z true None [] Scenario.open_tif
    = Ok (NDArray Scenario.obj [1; 2] entries)
    /\ Forall2
         (entry_for (10, 10) tt Scenario.uint8 3%Z true None []
            Scenario.open_tif)
         [Scenario.covering; Scenario.absent] entries.
Proof.
  apply (@asset_table_to_reader_and_window_spec
           Scenario.numpy Scenario.rasterio Scenario.specs Scenario.readers
           (10, 10) tt Scenario.uint8 3%Z true None [] Scenario.open_tif
           (Scenario.table_of [Scenario.covering; Scenario.absent] [1; 2])).
  repeat constructor; simpl; discriminate.
Defined.

Example reader_table_of_two_cells :
  asset_table_to_reader_and_window
    (Scenario.table_of [Scenario.covering; Scenario.absent] [1; 2])
    (10, 10) tt Scenario.uint8 3%Z true None [] Scenario.open_tif
  = Ok (NDArray Scenario.obj [1; 2]
          [tif_covering; entry_array (NDArray Scenario.uint8 [] [3%Z])]).
Proof. reflexivity. Qed.

Lemma items_to_dask_validates_fill_value_witness :
  Scenario.stack [Scenario.covering] [1; 1] 5 Scenario.uint8 300
  = (Err ValueError, [])
  /\ exists r rest,
       Scenario.stack [Scenario.covering] [1; 1] 5 Scenario.uint8 3
       = (r,
          [] ++ table_layer
                  (Scenario.table_of [Scenario.covering] [1; 1])
                :: readers_layer
                     (Scenario.table_of [Scenario.covering] [1; 1])
                     (10, 10) tt Scenario.uint8 3%Z true Scenario.open_tif
                     None None
                :: rest).
Proof.
  split.
  - apply (proj1
             (@items_to_dask_validates_fill_value
                Scenario.numpy Scenario.rasterio Scenario.specs
                Scenario.readers Scenario.tokens
                (Scenario.table_of [Scenario.covering] [1; 1]) (10, 10)
                5%Z tt Scenario.uint8 300%Z true Scenario.open_tif None None
                [])).
    reflexivity.
  - apply (proj2
             (@items_to_dask_validates_fill_value
                Scenario.numpy Scenario.rasterio Scenario.specs
                Scenario.readers Scenario.tokens
                (Scenario.table_of [Scenario.covering] [1; 1]) (10, 10)
                5%Z tt Scenario.uint8 3%Z true Scenario.open_tif None None
                [])).
    reflexivity.
Defined.

(** Two items by three assets on a 10 by 10 grid cut in chunks of 4. *)
Definition six_cells : list AssetEntry :=
  [Scenario.covering; Scenario.absent; Scenario.elsewhere;
   Scenario.absent; Scenario.absent; Scenario.covering].

Example six_cells_graph :
  match Scenario.stack six_cells [2; 3] 4 Scenario.uint8 3 with
  | (Ok arr, created) =>
      chunks arr = [[1; 1]; [1; 1; 1]; [4; 4; 2]; [4; 4; 2]]%Z
      /\ array_numblocks arr = [2; 3; 3; 3]
      /\ List.length created = 3
  | (Err _, _) => False
  end.
Proof. vm_compute. repeat split. Qed.

Example empty_table_chunks :
  match Scenario.stack [] [0; 1] 5 Scenario.uint8 3 with
  | (Ok arr, _) => chunks arr = [[0]; [1]; [5; 5]; [5; 5]]%Z
  | (Err _, _) => False
  end.
Proof. vm_compute. reflexivity. Qed.

(** A chunk size of 2^64 passes the fill-value check and is refused by
    [normalize_chunks], after the first two layers have been made. *)
Example huge_chunksize_raises :
  match
    Scenario.stack [Scenario.covering] [1; 1] (2 ^ 64) Scenario.uint8 3
  with
  | (Err TypeError, created) => List.length created = 2
  | _ => False
  end.
Proof. vm_compute. reflexivity. Qed.

(** * Further properties of the window index *)

Section SlicesEdges.

Local Open Scope Z_scope.

Lemma py_getitem_past_end {A} (l : list A) (i : Z) :
  Z.of_nat (List.length l) <= i -> py_getitem l i = Err IndexError.
Proof.
  intros Hi. unfold py_getitem.
  destruct (Z.ltb_spec i 0); [lia|].
  destruct (Z.leb_spec 0 i); [|lia].
  destruct (Z.ltb_spec i (Z.of_nat (List.length l))); [lia|].
  reflexivity.
Qed.

Lemma py_getitem_negative {A} (l : list A) (i : Z) :
  - Z.of_nat (List.length l) <= i < 0 ->
  py_getitem l i
  = of_option (nth_error l (Z.to_nat (i + Z.of_nat (List.length l))))
      IndexError.
Proof.
  intros Hi. unfold py_getitem.
  destruct (Z.ltb_spec i 0); [|lia].
  destruct (Z.leb_spec 0 (i + Z.of_nat (List.length l))); [|lia].
  destruct (Z.ltb_spec (i + Z.of_nat (List.length l))
              (Z.of_nat (List.length l))); [|lia].
  reflexivity.
Qed.

Lemma py_getitem_before_start {A} (l : list A) (i : Z) :
  i < - Z.of_nat (List.length l) -> py_getitem l i = Err IndexError.
Proof.
  intros Hi. unfold py_getitem.
  destruct (Z.ltb_spec i 0); [|lia].
  destruct (Z.leb_spec 0 (i + Z.of_nat (List.length l))); [lia|].
  reflexivity.
Qed.

Lemma cum_zero (c : list Z) : cum c 0 = 0.
Proof. reflexivity. Qed.

Lemma cum_all (c : list Z) : cum c (Z.of_nat (List.length c)) = zsum c.
Proof. unfold cum. now rewrite Nat2Z.id, firstn_all. Qed.

Lemma zsum_firstn_succ (c : list Z) :
  forall k : nat,
    (k < List.length c)%nat ->
    zsum (firstn (S k) c) = zsum (firstn k c) + nth k c 0.
Proof.
  induction c as [|x c IH]; intros k Hk; simpl in Hk; [lia|].
  destruct k as [|k].
  - simpl. lia.
  - change (zsum (firstn (S (S k)) (x :: c)))
      with (x + zsum (firstn (S k) c)).
    rewrite IH by lia. simpl. lia.
Qed.

(** The offset after chunk [i] is the offset before it plus its size. *)
Lemma cum_succ (c : list Z) (i : Z) :
  0 <= i < Z.of_nat (List.length c) ->
  cum c (i + 1) = cum c i + nth (Z.to_nat i) c 0.
Proof.
  intros Hi. unfold cum.
  replace (Z.to_nat (i + 1)) with (S (Z.to_nat i)) by lia.
  apply zsum_firstn_succ. lia.
Qed.

End SlicesEdges.

(** The size of the chunk a coordinate names on its axis. *)
Definition chunk_size_at (ic : Z * list Z) : Z :=
  nth (Z.to_nat (fst ic)) (snd ic) 0%Z.

(** X1.  The slice [Slices] gives for chunk [i] of an axis starts where
    the chunks before it end and is exactly as long as chunk [i]: the
    slices of an axis follow one another from 0 to the sum of its chunk
    sizes, without gap or overlap. *)
Theorem Slices_windows_tile (chunks : list (list Z)) (idx : list Z) :
  Forall in_range (combine idx chunks) ->
  SlicesDep.getitem (SlicesDep.init chunks) idx
  = Ok (map (fun ic =>
               Slice (cum (snd ic) (fst ic))
                 (cum (snd ic) (fst ic) + chunk_size_at ic)%Z)
          (combine idx chunks))
  /\ Forall (fun c => cum c 0 = 0%Z
                      /\ cum c (Z.of_nat (List.length c)) = zsum c) chunks.
Proof.
  intros Hin. split.
  - unfold SlicesDep.getitem. simpl. rewrite getitem_zip_init by assumption.
    f_equal. apply map_ext_in. intros [i c] Hic.
    rewrite Forall_forall in Hin. specialize (Hin _ Hic).
    unfold in_range in Hin. unfold window_of, chunk_size_at. simpl in *.
    now rewrite cum_succ.
  - apply Forall_forall. intros c _. split; [apply cum_zero | apply cum_all].
Qed.

Lemma Slices_windows_tile_witness :
  SlicesDep.getitem (SlicesDep.init [[5; 5]; [4; 4; 2]]%Z) [1; 2]%Z
  = Ok [Slice 5 (5 + 5); Slice 8 (8 + 2)]
  /\ Forall (fun c => cum c 0 = 0%Z
                      /\ cum c (Z.of_nat (List.length c)) = zsum c)
       [[5; 5]; [4; 4; 2]]%Z.
Proof.
  apply (@Slices_windows_tile [[5; 5]; [4; 4; 2]]%Z [1; 2]%Z).
  repeat constructor; simpl; lia.
Defined.

(** X2.  A coordinate at or past the number of chunks of its axis makes
    the lookup raise [IndexError], whatever the other coordinates are, as
    long as none is negative: together with the in-range case, the lookup
    succeeds exactly on the coordinates below [numblocks]. *)
Theorem Slices_getitem_out_of_range (chunks : list (list Z)) (idx : list Z) :
  Forall (fun ic => (0 <= fst ic)%Z) (combine idx chunks) ->
  Exists (fun ic => (Z.of_nat (List.length (snd ic)) <= fst ic)%Z)
    (combine idx chunks) ->
  SlicesDep.getitem (SlicesDep.init chunks) idx = Err IndexError.
Proof.
  unfold SlicesDep.getitem. simpl.
  revert idx. induction chunks as [|c chunks IH]; intros [|i idx] Hpos Hbad;
    simpl in Hbad; try (now inversion Hbad).
  simpl in Hpos. inversion Hpos as [|? ? Hi Hpos']; subst. simpl in Hi.
  simpl.
  destruct (Z_lt_le_dec i (Z.of_nat (List.length c))) as [Hlt|Hge].
  - rewrite !starts_lookup by lia. simpl.
    rewrite IH; [reflexivity | assumption |].
    inversion Hbad as [? ? Hhd | ? ? Htl]; subst; [simpl in Hhd; lia|].
    exact Htl.
  - destruct (Z.eq_dec i (Z.of_nat (List.length c))) as [->|Hne].
    + rewrite starts_lookup by lia. simpl.
      rewrite py_getitem_past_end by (rewrite accumulate_length; lia).
      reflexivity.
    + rewrite py_getitem_past_end by (rewrite accumulate_length; lia).
      reflexivity.
Qed.

Lemma Slices_getitem_out_of_range_witness :
  SlicesDep.getitem (SlicesDep.init [[5; 5]; [4; 4; 2]]%Z) [1; 3]%Z
  = Err IndexError.
Proof.
  apply (@Slices_getitem_out_of_range [[5; 5]; [4; 4; 2]]%Z [1; 3]%Z).
  - repeat constructor; simpl; lia.
  - apply Exists_cons_tl. apply Exists_cons_hd. simpl. lia.
Defined.

(** X3.  A negative coordinate is not rejected: Python's indexing of the
    offsets from the end makes the coordinate [-1] the slice from the end
    of the axis back to 0, and a coordinate [i] with
    [-(n + 1) <= i <= -2], on an axis of [n] chunks, the slice of chunk
    [n + 1 + i]; below that the lookup raises [IndexError]. *)
Theorem Slices_getitem_negative (c : list Z) (i : Z) :
  (i = -1 ->
   SlicesDep.getitem (SlicesDep.init [c]) [i] = Ok [Slice (zsum c) 0])%Z
  /\ ((- Z.of_nat (List.length c) - 1 <= i <= -2)%Z ->
      SlicesDep.getitem (SlicesDep.init [c]) [i]
      = Ok [window_of (Z.of_nat (List.length c) + 1 + i, c)%Z])
  /\ ((i < - Z.of_nat (List.length c) - 1)%Z ->
      SlicesDep.getitem (SlicesDep.init [c]) [i] = Err IndexError).
Proof.
  unfold SlicesDep.getitem. simpl.
  pose proof (accumulate_length c 0) as Hlen.
  split; [|split].
  - intros ->.
    rewrite py_getitem_negative by lia. rewrite Hlen.
    replace (Z.to_nat (-1 + Z.of_nat (S (List.length c))))
      with (List.length c) by lia.
    rewrite accumulate_nth by lia. rewrite firstn_all. simpl.
    change (-1 + 1)%Z with 0%Z.
    rewrite (@starts_lookup c 0%Z) by lia. reflexivity.
  - intros Hi.
    rewrite py_getitem_negative by lia.
    rewrite py_getitem_negative by lia.
    rewrite Hlen, Nat2Z.inj_succ.
    rewrite accumulate_nth by lia. cbn [of_option rbind].
    rewrite accumulate_nth by lia. cbn [of_option rbind].
    unfold window_of, cum. cbn [fst snd].
    rewrite !Z.add_0_l. do 3 f_equal; f_equal; f_equal; lia.
  - intros Hi.
    rewrite py_getitem_before_start by lia. reflexivity.
Qed.

Lemma Slices_getitem_negative_witness :
  SlicesDep.getitem (SlicesDep.init [[4; 4; 2]]%Z) [-1]%Z
  = Ok [Slice 10 0]
  /\ SlicesDep.getitem (SlicesDep.init [[4; 4; 2]]%Z) [-2]%Z
     = Ok [Slice 8 10]
  /\ SlicesDep.getitem (SlicesDep.init [[4; 4; 2]]%Z) [-5]%Z
     = Err IndexError.
Proof.
  split; [|split].
  - apply (proj1 (@Slices_getitem_negative [4; 4; 2]%Z (-1)%Z)).
    reflexivity.
  - apply (proj1 (proj2 (@Slices_getitem_negative [4; 4; 2]%Z (-2)%Z))).
    simpl. lia.
  - apply (proj2 (proj2 (@Slices_getitem_negative [4; 4; 2]%Z (-5)%Z))).
    simpl. lia.
Defined.

(** * Further properties of the executor and of the builder *)

Section FetchEffects.
Context `{NP : NumPy} `{RIO : Rasterio} `{RP : !ReaderProtocol}.

(** X5.  [fetch_raster_window] leaves the world as it found it, except
    when the entry is a reader whose asset window intersects the
    requested window: then the world is the one a single [read] of that
    window leaves.  A failed assertion, a fill array and a window that
    misses the asset never reach the reader. *)
Theorem fetch_raster_window_reads_at_most_once
  (reader_entry : ndarray np_dtype ReaderTableEntry)
  (slices : list slice) (world : World) :
  snd (fetch_raster_window reader_entry slices world) = world
  \/ exists reader asset_window cw,
       nd_data reader_entry = [entry_tuple reader asset_window]
       /\ from_slices_star slices = Ok cw
       /\ intersect cw asset_window = true
       /\ snd (fetch_raster_window reader_entry slices world)
          = snd (reader_read reader cw world).
Proof.
  unfold fetch_raster_window, bind, assert, lift, ret, raise.
  destruct (List.length slices =? 2); [|now left].
  destruct (nd_size reader_entry =? 1); [|now left].
  unfold nd_item.
  destruct (nd_data reader_entry) as [|entry [|? ?]]; try now left.
  destruct (from_slices_star slices) as [cw|e]; [|now left].
  destruct entry as [reader asset_window | fill_arr].
  - destruct (intersect cw asset_window) eqn:Hhit.
    + right. exists reader, asset_window, cw.
      repeat split; try reflexivity; try assumption.
      unfold read.
      destruct (reader_read reader cw world) as [[cls|data] w]; reflexivity.
    + left.
      destruct (np_array (reader_fill_value reader) (reader_dtype reader));
        reflexivity.
  - now left.
Qed.

End FetchEffects.

Lemma mapR_first_failure {A B} (f : A -> result B)
  (pre post : list A) (bad : A) (e : exn) :
  Forall (fun x => exists y, f x = Ok y) pre ->
  f bad = Err e ->
  mapR f (pre ++ bad :: post) = Err e.
Proof.
  intros Hpre Hbad.
  induction Hpre as [|x pre (y & Hy) _ IH]; simpl.
  - now rewrite Hbad.
  - now rewrite Hy, IH.
Qed.

Section BuilderEdges.
Context `{NP : NumPy} `{RIO : Rasterio}.
Context `{RS : !RasterSpecs} `{RP : !ReaderProtocol}.

Variables (spec : RasterSpec) (resampling : Resampling) (dtype : np_dtype).
Variables (fill_value : scalar) (rescale : bool).
Variables (gdal_env : option LayeredEnv) (errors_as_nodata : list string).
Variable reader : ReaderType.

(** X6.  [asset_table_to_reader_and_window] stops at the first cell, in
    C order, on which a conversion raises, and raises that cell's
    exception: [WindowError] when [from_bounds] rejects the bounds of a
    cell with a URL, the cast error when a cell without URL meets a fill
    value NumPy cannot convert.  Cells after it are not looked at and no
    table is returned. *)
Theorem asset_table_to_reader_and_window_first_failure
  (asset_table : ndarray np_dtype AssetEntry)
  (pre post : list AssetEntry) (bad : AssetEntry) :
  nd_data asset_table = pre ++ bad :: post ->
  Forall (convertible spec dtype fill_value) pre ->
  ~ convertible spec dtype fill_value bad ->
  asset_table_to_reader_and_window asset_table spec resampling dtype
    fill_value rescale gdal_env errors_as_nodata reader
  = Err (match url bad with
         | Some _ => WindowError
         | None => NumpyCastError
         end).
Proof.
  intros Hdata Hpre Hbad.
  unfold asset_table_to_reader_and_window. rewrite Hdata.
  rewrite mapR_first_failure
    with (e := match url bad with
               | Some _ => WindowError
               | None => NumpyCastError
               end).
  - reflexivity.
  - eapply Forall_impl; [|exact Hpre]. intros cell Hcell.
    destruct (@reader_table_entry_ok _ _ _ _ spec resampling dtype
                fill_value rescale gdal_env errors_as_nodata reader cell
                Hcell) as (entry & Hentry & _).
    now exists entry.
  - unfold convertible, bounds_window in Hbad.
    unfold reader_table_entry, np_array.
    destruct (url bad) as [u|].
    + destruct (bounds bad) as [[[west south] east] north].
      destruct (from_bounds west south east north (spec_transform spec) 0)
        as [w|]; [|reflexivity].
      exfalso. apply Hbad. discriminate.
    + destruct (np_cast fill_value dtype) as [x|]; [|reflexivity].
      exfalso. apply Hbad. discriminate.
Qed.

End BuilderEdges.

(** A cell whose bounds are inverted: rasterio rejects them. *)
Definition inverted : AssetEntry :=
  {| url := Some "b.tif"; bounds := (10, 0, 0, 10)%Z |}.

Lemma asset_table_to_reader_and_window_first_failure_witness :
  asset_table_to_reader_and_window
    (Scenario.table_of
       [Scenario.covering; inverted; Scenario.absent] [1; 3])
    (10, 10) tt Scenario.uint8 3%Z true None [] Scenario.open_tif
  = Err WindowError.
Proof.
  apply (@asset_table_to_reader_and_window_first_failure
           Scenario.numpy Scenario.rasterio Scenario.specs Scenario.readers
           (10, 10) tt Scenario.uint8 3%Z true None [] Scenario.open_tif
           (Scenario.table_of
              [Scenario.covering; inverted; Scenario.absent] [1; 3])
           [Scenario.covering] [Scenario.absent] inverted).
  - reflexivity.
  - repeat constructor. simpl. discriminate.
  - simpl. intros H. now apply H.
Defined.

(** * Further properties of the graph *)

(** The names of the arrays a layer takes its blocks from. *)
Definition layer_deps `{NP : NumPy} `{RIO : Rasterio} `{RS : !RasterSpecs}
  `{RP : !ReaderProtocol} (lyr : Layer) : list string :=
  match lyr with
  | MaterializedLayer _ _ _ => []
  | BlockwiseLayer _ _ _ args _ =>
      flat_map
        (fun a : BlockwiseArg * string =>
           match fst a with
           | arg_array n _ => [n]
           | arg_dep _ => []
           end)
        args
  end.

Definition layer_annotations `{NP : NumPy} `{RIO : Rasterio}
  `{RS : !RasterSpecs} `{RP : !ReaderProtocol} (lyr : Layer)
  : list (string * bool) :=
  match lyr with
  | MaterializedLayer _ _ _ => []
  | BlockwiseLayer _ _ _ _ annotations => annotations
  end.

Section ChunkSums.

Local Open Scope Z_scope.

Lemma normalize_axis_sum (c : Z) (d : nat) (l : list Z) :
  dask.normalize_axis c d = Ok l -> zsum l = Z.of_nat d.
Proof.
  unfold dask.normalize_axis.
  set (bd := if c =? -1 then Z.of_nat d else c).
  destruct (Z.leb_spec (2 ^ 64) bd); [discriminate|].
  destruct (Z.eqb_spec (Z.of_nat d) 0) as [H0|H0].
  { intros [= <-]. simpl. lia. }
  destruct (Z.eqb_spec bd 0); [discriminate|].
  destruct (Z.ltb_spec bd 0); [discriminate|].
  intros [= <-].
  pose proof (Z.div_mod (Z.of_nat d) bd ltac:(lia)) as Hdm.
  assert (Hq : 0 <= Z.of_nat d / bd) by (apply Z.div_pos; lia).
  rewrite zsum_app, zsum_repeat, Z2Nat.id by lia.
  destruct (Z.eqb_spec (Z.of_nat d mod bd) 0); simpl; lia.
Qed.

Lemma normalize_chunks_sum (c : Z) (shape : list nat) :
  forall ls, dask.normalize_chunks c shape = Ok ls ->
             map zsum ls = map Z.of_nat shape.
Proof.
  unfold dask.normalize_chunks.
  induction shape as [|d shape IH]; simpl; intros ls.
  - now intros [= <-].
  - destruct (dask.normalize_axis c d) as [l|] eqn:Hl; simpl; [|discriminate].
    destruct (mapR (dask.normalize_axis c) shape) as [ls'|]; simpl;
      [|discriminate].
    intros [= <-]. simpl. f_equal.
    + now apply normalize_axis_sum with (c := c).
    + now apply IH.
Qed.

Lemma unit_chunks_sum (d : nat) : zsum (unit_chunks d) = Z.of_nat d.
Proof.
  unfold unit_chunks. destruct (Nat.eqb_spec d 0) as [->|Hd].
  - reflexivity.
  - rewrite zsum_repeat. lia.
Qed.

Lemma normalize_chunks_two (c : Z) (h w : nat) ls :
  dask.normalize_chunks c [h; w] = Ok ls ->
  exists cy cx, ls = [cy; cx].
Proof.
  unfold dask.normalize_chunks. simpl.
  destruct (dask.normalize_axis c h) as [cy|]; simpl; [|discriminate].
  destruct (dask.normalize_axis c w) as [cx|]; simpl; [|discriminate].
  intros [= <-]. now exists cy, cx.
Qed.

Lemma normalize_chunks_two_axes (c : Z) (h w : nat) ls :
  dask.normalize_chunks c [h; w] = Ok ls ->
  exists cy cx,
    ls = [cy; cx]
    /\ dask.normalize_axis c h = Ok cy
    /\ dask.normalize_axis c w = Ok cx.
Proof.
  unfold dask.normalize_chunks. simpl.
  destruct (dask.normalize_axis c h) as [cy|]; simpl; [|discriminate].
  destruct (dask.normalize_axis c w) as [cx|]; simpl; [|discriminate].
  intros [= <-]. now exists cy, cx.
Qed.

(** A positive chunk size that [normalize_chunks] accepts cuts the axis
    into the regular chunks. *)
Lemma normalize_axis_pos_inv (c : Z) (d : nat) (l : list Z) :
  1 <= c -> dask.normalize_axis c d = Ok l -> l = axis_chunks c d.
Proof.
  intros Hc Hl.
  destruct (Z.leb_spec (2 ^ 64) c) as [Hbig|Hsmall].
  - unfold dask.normalize_axis in Hl.
    destruct (Z.eqb_spec c (-1)); [lia|].
    destruct (Z.leb_spec (2 ^ 64) c); [discriminate | lia].
  - rewrite normalize_axis_pos in Hl by lia. congruence.
Qed.

End ChunkSums.

Section GraphEdges.
Context `{NP : NumPy} `{RIO : Rasterio}.
Context `{RS : !RasterSpecs} `{RP : !ReaderProtocol}.
Context `{TK : dask.Tokenize}.

Variables (asset_table : ndarray np_dtype AssetEntry) (spec : RasterSpec).
Variables (chunksize : Z) (resampling : Resampling) (dtype : np_dtype).
Variables (fill_value : scalar) (rescale : bool) (reader : ReaderType).
Variables (gdal_env : option LayeredEnv).
Variable errors_as_nodata : option (list string).

Local Notation run :=
  (run_items_to_dask asset_table spec chunksize resampling dtype fill_value
     rescale reader gdal_env errors_as_nodata).
Local Notation built :=
  (rasters asset_table spec resampling dtype fill_value rescale reader
     gdal_env errors_as_nodata).

(** Every successful call went through the three layers. *)
Lemma items_to_dask_returns_inv (created created' : list Layer) arr :
  run created = (Ok arr, created') ->
  can_cast fill_value dtype = true
  /\ exists chunks_yx,
       dask.normalize_chunks chunksize
         [fst (spec_shape spec); snd (spec_shape spec)] = Ok chunks_yx
       /\ arr = built chunks_yx
       /\ created' = created ++ dask_graph arr.
Proof.
  intros Hrun.
  assert (Hcast : can_cast fill_value dtype = true).
  { destruct (can_cast fill_value dtype) eqn:Hc; [reflexivity|].
    unfold run_items_to_dask, items_to_dask in Hrun.
    rewrite Hc in Hrun. discriminate. }
  split; [exact Hcast|].
  rewrite items_to_dask_run in Hrun by assumption.
  destruct (dask.normalize_chunks chunksize _) as [chunks_yx|e];
    [|discriminate].
  injection Hrun as <- <-. now exists chunks_yx.
Qed.

(** X7.  Whenever [items_to_dask] returns, whatever the chunk size, the
    chunks of the array add up along each axis to the shape of the asset
    table followed by the shape of the raster spec: the array is
    [(items, assets, rows, cols)] and no pixel or cell is lost or counted
    twice. *)
Theorem items_to_dask_shape (created created' : list Layer) arr :
  run created = (Ok arr, created') ->
  map zsum (chunks arr)
  = map Z.of_nat
      (nd_shape asset_table
       ++ [fst (spec_shape spec); snd (spec_shape spec)]).
Proof.
  intros Hrun.
  destruct (items_to_dask_returns_inv _ Hrun)
    as (_ & chunks_yx & Hn & -> & _).
  unfold rasters. simpl. rewrite !map_app. f_equal.
  - unfold table_chunks. rewrite map_map. apply map_ext.
    exact unit_chunks_sum.
  - now apply normalize_chunks_sum with (c := chunksize).
Qed.

(** X8.  The graph of the returned array is closed and layered: three
    layers with three different names, the asset table depending on
    nothing, the reader table only on the asset table and the fetch layer
    only on the reader table; the array is named after the fetch layer;
    and the reader-table layer is annotated [fuse=False] while the fetch
    layer carries no annotation, so the two never have matching
    annotations. *)
Theorem items_to_dask_graph_layers (created created' : list Layer) arr :
  run created = (Ok arr, created') ->
  exists l1 l2 l3,
    dask_graph arr = [l1; l2; l3]
    /\ layer_deps l1 = []
    /\ layer_deps l2 = [layer_name l1]
    /\ layer_deps l3 = [layer_name l2]
    /\ array_name arr = layer_name l3
    /\ layer_name l1 <> layer_name l2
    /\ layer_name l1 <> layer_name l3
    /\ layer_name l2 <> layer_name l3
    /\ layer_annotations l2 = [("fuse", false)]
    /\ layer_annotations l3 = []
    /\ layer_annotations l2 <> layer_annotations l3.
Proof.
  intros Hrun.
  destruct (items_to_dask_returns_inv _ Hrun)
    as (_ & chunks_yx & _ & -> & _).
  do 3 eexists. split; [reflexivity|].
  repeat split; try reflexivity; simpl;
    unfold table_name, readers_name, fetch_name; simpl; discriminate.
Qed.

(** X9.  The window index of the fetch layer is built from the very row
    and column chunks of the array: for every block coordinate [(y, x)]
    of the array it yields two slices, whose lengths are the sizes of
    row chunk [y] and column chunk [x]. *)
Theorem items_to_dask_windows_match_chunks
  (created created' : list Layer) arr :
  run created = (Ok arr, created') ->
  exists cy cx,
    chunks arr = table_chunks asset_table ++ [cy; cx]
    /\ last (dask_graph arr) (table_layer asset_table)
       = fetch_layer asset_table spec resampling dtype fill_value rescale
           reader gdal_env errors_as_nodata [cy; cx]
    /\ forall y x : Z,
         (0 <= y < Z.of_nat (List.length cy))%Z ->
         (0 <= x < Z.of_nat (List.length cx))%Z ->
         SlicesDep.getitem (SlicesDep.init [cy; cx]) [y; x]
         = Ok [Slice (cum cy y) (cum cy y + chunk_size_at (y, cy));
               Slice (cum cx x) (cum cx x + chunk_size_at (x, cx))].
Proof.
  intros Hrun.
  destruct (items_to_dask_returns_inv _ Hrun)
    as (_ & chunks_yx & Hn & -> & _).
  destruct (normalize_chunks_two _ _ _ Hn) as (cy & cx & ->).
  exists cy, cx. split; [reflexivity|]. split; [reflexivity|].
  intros y x Hy Hx.
  change (SlicesDep.getitem (SlicesDep.init [cy; cx]) [y; x])
    with (SlicesDep.getitem_zip [y; x]
            (map (fun c => itertools.accumulate c 0%Z) [cy; cx])).
  rewrite getitem_zip_init
    by (constructor; [exact Hy | constructor; [exact Hx | constructor]]).
  simpl. unfold window_of, chunk_size_at. simpl.
  now rewrite !cum_succ.
Qed.

(** X17.  Whenever [items_to_dask] returns an array for an asset table
    without an empty axis, the array has chunks of size exactly 1 along
    the axes of the table (items and assets), which are the chunks
    [from_array] gave the table with [chunks=1]; and if the chunk size
    is positive, the row and column chunks add up to the spec's shape,
    none exceeds the chunk size and all but the last of an axis equal
    it. *)
Theorem items_to_dask_unit_chunks (created created' : list Layer) arr :
  run created = (Ok arr, created') ->
  Forall (fun d => 1 <= d) (nd_shape asset_table) ->
  exists cy cx,
    chunks arr
    = map (fun d => repeat 1%Z d) (nd_shape asset_table) ++ [cy; cx]
    /\ unit_leading_chunks (List.length (nd_shape asset_table)) arr
    /\ ((1 <= chunksize)%Z ->
        regular_chunks chunksize (fst (spec_shape spec)) cy
        /\ regular_chunks chunksize (snd (spec_shape spec)) cx).
Proof.
  intros Hrun Hpos.
  destruct (items_to_dask_returns_inv _ Hrun)
    as (_ & chunks_yx & Hn & -> & _).
  destruct (normalize_chunks_two_axes _ _ _ Hn) as (cy & cx & -> & Hy & Hx).
  exists cy, cx.
  assert (Hchunks :
    chunks (built [cy; cx])
    = map (fun d => repeat 1%Z d) (nd_shape asset_table) ++ [cy; cx]).
  { unfold rasters. simpl. now rewrite table_chunks_nonempty_axes. }
  split; [exact Hchunks|]. split.
  - unfold unit_leading_chunks. rewrite Hchunks.
    rewrite firstn_app, length_map, Nat.sub_diag. simpl.
    rewrite app_nil_r, firstn_all2 by (rewrite length_map; lia).
    apply Forall_forall. intros l Hl.
    apply in_map_iff in Hl. destruct Hl as (d & <- & _).
    apply Forall_forall. intros c Hin. now apply repeat_spec in Hin.
  - intros Hc.
    rewrite (normalize_axis_pos_inv _ Hc Hy).
    rewrite (normalize_axis_pos_inv _ Hc Hx).
    split; now apply axis_chunks_regular.
Qed.

(** X18.  What the returned array stores for a table of [I] items by [A]
    assets.  The asset-table layer is the only one that lists tasks, one
    per block of the table: [max I 1 * max A 1] of them, an empty axis
    being one block.  The reader-table layer and the fetch layer are
    blockwise layers, which list none, and the window index handed to
    the fetch layer holds one integer per row chunk and per column chunk
    and two more.  The array itself has [max I 1 * max A 1 * Y * X]
    blocks, for [Y] row chunks and [X] column chunks; the layers created
    by the call are the three of the array. *)
Theorem items_to_dask_stored_tasks
  (created created' : list Layer) arr (I A : nat) :
  run created = (Ok arr, created') ->
  nd_shape asset_table = [I; A] ->
  exists tasks cy cx,
    dask_graph arr
    = [MaterializedLayer (table_name asset_table) asset_table tasks;
       readers_layer asset_table spec resampling dtype fill_value rescale
         reader gdal_env errors_as_nodata;
       fetch_layer asset_table spec resampling dtype fill_value rescale
         reader gdal_env errors_as_nodata [cy; cx]]
    /\ List.length tasks = Nat.max I 1 * Nat.max A 1
    /\ SlicesDep.stored_ints (SlicesDep.init [cy; cx])
       = List.length cy + List.length cx + 2
    /\ array_numblocks arr
       = [Nat.max I 1; Nat.max A 1; List.length cy; List.length cx]
    /\ created' = created ++ dask_graph arr.
Proof.
  intros Hrun Hshape.
  destruct (items_to_dask_returns_inv _ Hrun)
    as (_ & chunks_yx & Hn & -> & Hcreated).
  destruct (normalize_chunks_two _ _ _ Hn) as (cy & cx & ->).
  assert (Htc : table_chunks asset_table = [unit_chunks I; unit_chunks A]).
  { unfold table_chunks. now rewrite Hshape. }
  eexists. exists cy, cx.
  split; [reflexivity|]. split; [|split; [|split]].
  - rewrite block_tasks_length, Htc. simpl.
    rewrite !unit_chunks_length. lia.
  - rewrite stored_ints_init. simpl. lia.
  - unfold array_numblocks, rasters. simpl. rewrite Htc. simpl.
    now rewrite !unit_chunks_length.
  - exact Hcreated.
Qed.

End GraphEdges.

(** The array built from the two-by-three table, chunk size 4. *)
Definition six_cells_array : Array :=
  rasters (Scenario.table_of six_cells [2; 3]) (10, 10) tt Scenario.uint8
    3%Z true Scenario.open_tif None None [[4; 4; 2]; [4; 4; 2]]%Z.

Lemma six_cells_array_built :
  Scenario.stack six_cells [2; 3] 4 Scenario.uint8 3
  = (Ok six_cells_array, dask_graph six_cells_array).
Proof.
  apply (@items_to_dask_ok
           Scenario.numpy Scenario.rasterio Scenario.specs Scenario.readers
           Scenario.tokens (Scenario.table_of six_cells [2; 3]) (10, 10)
           4%Z tt Scenario.uint8 3%Z true Scenario.open_tif None None []).
  - reflexivity.
  - lia.
Defined.

Lemma items_to_dask_shape_witness :
  map zsum (chunks six_cells_array)
  = map Z.of_nat ([2; 3] ++ [10; 10]).
Proof.
  apply (@items_to_dask_shape
           Scenario.numpy Scenario.rasterio Scenario.specs Scenario.readers
           Scenario.tokens (Scenario.table_of six_cells [2; 3]) (10, 10)
           4%Z tt Scenario.uint8 3%Z true Scenario.open_tif None None
           [] (dask_graph six_cells_array) six_cells_array).
  exact six_cells_array_built.
Defined.

Lemma items_to_dask_graph_layers_witness :
  exists l1 l2 l3,
    dask_graph six_cells_array = [l1; l2; l3]
    /\ layer_deps l1 = []
    /\ layer_deps l2 = [layer_name l1]
    /\ layer_deps l3 = [layer_name l2]
    /\ array_name six_cells_array = layer_name l3
    /\ layer_name l1 <> layer_name l2
    /\ layer_name l1 <> layer_name l3
    /\ layer_name l2 <> layer_name l3
    /\ layer_annotations l2 = [("fuse", false)]
    /\ layer_annotations l3 = []
    /\ layer_annotations l2 <> layer_annotations l3.
Proof.
  apply (@items_to_dask_graph_layers
           Scenario.numpy Scenario.rasterio Scenario.specs Scenario.readers
           Scenario.tokens (Scenario.table_of six_cells [2; 3]) (10, 10)
           4%Z tt Scenario.uint8 3%Z true Scenario.open_tif None None
           [] (dask_graph six_cells_array) six_cells_array).
  exact six_cells_array_built.
Defined.

Lemma items_to_dask_windows_match_chunks_witness :
  exists cy cx,
    chunks six_cells_array
    = table_chunks (Scenario.table_of six_cells [2; 3]) ++ [cy; cx]
    /\ last (dask_graph six_cells_array)
         (table_layer (Scenario.table_of six_cells [2; 3]))
       = fetch_layer (Scenario.table_of six_cells [2; 3]) (10, 10) tt
           Scenario.uint8 3%Z true Scenario.open_tif None None [cy; cx]
    /\ forall y x : Z,
         (0 <= y < Z.of_nat (List.length cy))%Z ->
         (0 <= x < Z.of_nat (List.length cx))%Z ->
         SlicesDep.getitem (SlicesDep.init [cy; cx]) [y; x]
         = Ok [Slice (cum cy y) (cum cy y + chunk_size_at (y, cy));
               Slice (cum cx x) (cum cx x + chunk_size_at (x, cx))].
Proof.
  apply (@items_to_dask_windows_match_chunks
           Scenario.numpy Scenario.rasterio Scenario.specs Scenario.readers
           Scenario.tokens (Scenario.table_of six_cells [2; 3]) (10, 10)
           4%Z tt Scenario.uint8 3%Z true Scenario.open_tif None None
           [] (dask_graph six_cells_array) six_cells_array).
  exact six_cells_array_built.
Defined.

Lemma items_to_dask_unit_chunks_witness :
  exists cy cx,
    chunks six_cells_array = map (fun d => repeat 1%Z d) [2; 3] ++ [cy; cx]
    /\ unit_leading_chunks 2 six_cells_array
    /\ ((1 <= 4)%Z -> regular_chunks 4 10 cy /\ regular_chunks 4 10 cx).
Proof.
  apply (@items_to_dask_unit_chunks
           Scenario.numpy Scenario.rasterio Scenario.specs Scenario.readers
           Scenario.tokens (Scenario.table_of six_cells [2; 3]) (10, 10)
           4%Z tt Scenario.uint8 3%Z true Scenario.open_tif None None
           [] (dask_graph six_cells_array) six_cells_array).
  - exact six_cells_array_built.
  - repeat constructor.
Defined.

Lemma items_to_dask_stored_tasks_witness :
  exists tasks cy cx,
    dask_graph six_cells_array
    = [MaterializedLayer
         (table_name (Scenario.table_of six_cells [2; 3]))
         (Scenario.table_of six_cells [2; 3]) tasks;
       readers_layer (Scenario.table_of six_cells [2; 3]) (10, 10) tt
         Scenario.uint8 3%Z true Scenario.open_tif None None;
       fetch_layer (Scenario.table_of six_cells [2; 3]) (10, 10) tt
         Scenario.uint8 3%Z true Scenario.open_tif None None [cy; cx]]
    /\ List.length tasks = Nat.max 2 1 * Nat.max 3 1
    /\ SlicesDep.stored_ints (SlicesDep.init [cy; cx])
       = List.length cy + List.length cx + 2
    /\ array_numblocks six_cells_array
       = [Nat.max 2 1; Nat.max 3 1; List.length cy; List.length cx]
    /\ dask_graph six_cells_array = [] ++ dask_graph six_cells_array.
Proof.
  apply (@items_to_dask_stored_tasks
           Scenario.numpy Scenario.rasterio Scenario.specs Scenario.readers
           Scenario.tokens (Scenario.table_of six_cells [2; 3]) (10, 10)
           4%Z tt Scenario.uint8 3%Z true Scenario.open_tif None None
           [] (dask_graph six_cells_array) six_cells_array 2 3).
  - exact six_cells_array_built.
  - reflexivity.
Defined.

(** A reader whose file cannot be read. *)
Definition tif_broken : ReaderTableEntry :=
  entry_tuple
    {| Scenario.tif_url := "broken.tif"; Scenario.tif_fill := 3%Z;
       Scenario.tif_dtype := Scenario.uint8 |}
    {| Scenario.col_off := 0; Scenario.row_off := 0;
       Scenario.width := 10; Scenario.height := 10 |}%Z.

Lemma fetch_raster_window_read_raises_witness :
  fetch_raster_window (one_cell tif_broken) [Slice 0 5; Slice 5 10] 0
  = (Err (ReaderException "RasterioIOError"), 1).
Proof.
  apply (@fetch_raster_window_read_raises
           Scenario.numpy Scenario.rasterio Scenario.readers
           (one_cell tif_broken)
           {| Scenario.tif_url := "broken.tif"; Scenario.tif_fill := 3%Z;
              Scenario.tif_dtype := Scenario.uint8 |}
           {| Scenario.col_off := 0; Scenario.row_off := 0;
              Scenario.width := 10; Scenario.height := 10 |}%Z
           (Slice 0 5) (Slice 5 10)
           {| Scenario.col_off := 5; Scenario.row_off := 0;
              Scenario.width := 5; Scenario.height := 5 |}%Z
           0 1 "RasterioIOError");
    reflexivity.
Defined.

(** * The builder commutes with taking a chunk *)

Lemma mapR_Ok_Forall2 {A B} (f : A -> result B) (l : list A) :
  forall ys, mapR f l = Ok ys <-> Forall2 (fun x y => f x = Ok y) l ys.
Proof.
  induction l as [|x l IH]; intros ys; simpl.
  - split.
    + intros [= <-]. constructor.
    + intros H. now inversion H.
  - split.
    + destruct (f x) as [y|] eqn:Hy; simpl; [|discriminate].
      destruct (mapR f l) as [ys'|] eqn:Hys; simpl; [|discriminate].
      intros [= <-]. constructor; [exact Hy | now apply IH].
    + intros H. inversion H as [|? y ? ys' Hy Hrest]; subst.
      rewrite Hy. simpl. apply IH in Hrest. now rewrite Hrest.
Qed.

Lemma Forall2_firstn_both {A B} (R : A -> B -> Prop) (n : nat) :
  forall l1 l2, Forall2 R l1 l2 -> Forall2 R (firstn n l1) (firstn n l2).
Proof.
  induction n as [|n IH]; intros l1 l2 H; simpl.
  - constructor.
  - destruct H; constructor; [assumption | now apply IH].
Qed.

Lemma Forall2_skipn_both {A B} (R : A -> B -> Prop) (n : nat) :
  forall l1 l2, Forall2 R l1 l2 -> Forall2 R (skipn n l1) (skipn n l2).
Proof.
  induction n as [|n IH]; intros l1 l2 H; simpl.
  - exact H.
  - destruct H; [constructor | now apply IH].
Qed.

Lemma Forall2_pieces {A B} (R : A -> B -> Prop) (n k : nat) :
  forall l1 l2,
    Forall2 R l1 l2 -> Forall2 (Forall2 R) (pieces n k l1) (pieces n k l2).
Proof.
  induction k as [|k IH]; intros l1 l2 H; simpl.
  - constructor.
  - constructor.
    + now apply Forall2_firstn_both.
    + apply IH. now apply Forall2_skipn_both.
Qed.

Lemma Forall2_concat_both {A B} (R : A -> B -> Prop) :
  forall ls1 ls2,
    Forall2 (Forall2 R) ls1 ls2 ->
    Forall2 R (List.concat ls1) (List.concat ls2).
Proof.
  induction 1 as [|l1 l2 ls1 ls2 H _ IH]; simpl.
  - constructor.
  - now apply Forall2_app.
Qed.

Lemma Forall2_map_both {A B C D} (R : A -> B -> Prop) (Q : C -> D -> Prop)
  (f : A -> C) (g : B -> D) :
  (forall a b, R a b -> Q (f a) (g b)) ->
  forall l1 l2, Forall2 R l1 l2 -> Forall2 Q (map f l1) (map g l2).
Proof.
  intros Hfg. induction 1; simpl; constructor; auto.
Qed.

(** Slicing two buffers related cell by cell gives related buffers. *)
Lemma Forall2_slice_data {A B} (R : A -> B -> Prop) (shape : list nat) :
  forall (sl : list slice) d1 d2,
    Forall2 R d1 d2 ->
    Forall2 R (slice_data shape sl d1) (slice_data shape sl d2).
Proof.
  induction shape as [|n shape IH]; intros sl d1 d2 H.
  - destruct sl; exact H.
  - destruct sl as [|s sl]; [exact H|]. simpl.
    apply Forall2_concat_both.
    apply Forall2_map_both with (R := Forall2 R).
    + intros a b Hab. now apply IH.
    + apply Forall2_firstn_both, Forall2_skipn_both.
      now apply Forall2_pieces.
Qed.

Section BuilderChunks.
Context `{NP : NumPy} `{RIO : Rasterio}.
Context `{RS : !RasterSpecs} `{RP : !ReaderProtocol}.

(** X10.  Opening a chunk of the asset table gives the same chunk of the
    opened table: if [asset_table_to_reader_and_window] returns a reader
    table for the whole asset table, then on the block [getter] cuts out
    of the asset table it returns the block [getter] cuts out of that
    reader table at the same slices. *)
Theorem asset_table_to_reader_and_window_on_chunk
  (spec : RasterSpec) (resampling : Resampling) (dtype : np_dtype)
  (fill_value : scalar) (rescale : bool) (gdal_env : option LayeredEnv)
  (errors_as_nodata : list string) (reader : ReaderType)
  (asset_table : ndarray np_dtype AssetEntry)
  (reader_table : ndarray np_dtype ReaderTableEntry) (sl : list slice) :
  asset_table_to_reader_and_window asset_table spec resampling dtype
    fill_value rescale gdal_env errors_as_nodata reader
  = Ok reader_table ->
  asset_table_to_reader_and_window (getter asset_table sl) spec resampling
    dtype fill_value rescale gdal_env errors_as_nodata reader
  = Ok (getter reader_table sl).
Proof.
  unfold asset_table_to_reader_and_window. intros Hwhole.
  destruct (mapR _ (nd_data asset_table)) as [entries|] eqn:Hmap;
    simpl in Hwhole; [|discriminate].
  injection Hwhole as <-.
  apply mapR_Ok_Forall2 in Hmap.
  apply Forall2_slice_data with (shape := nd_shape asset_table) (sl := sl)
    in Hmap.
  apply mapR_Ok_Forall2 in Hmap.
  unfold getter. simpl. rewrite Hmap. reflexivity.
Qed.

End BuilderChunks.

Lemma asset_table_to_reader_and_window_on_chunk_witness :
  asset_table_to_reader_and_window
    (getter (Scenario.table_of six_cells [2; 3]) [Slice 1 2; Slice 2 3])
    (10, 10) tt Scenario.uint8 3%Z true None [] Scenario.open_tif
  = Ok (getter
          (NDArray Scenario.obj [2; 3]
             [tif_covering;
              entry_array (NDArray Scenario.uint8 [] [3%Z]);
              tif_elsewhere;
              entry_array (NDArray Scenario.uint8 [] [3%Z]);
              entry_array (NDArray Scenario.uint8 [] [3%Z]);
              tif_covering])
          [Slice 1 2; Slice 2 3]).
Proof.
  apply (@asset_table_to_reader_and_window_on_chunk
           Scenario.numpy Scenario.rasterio Scenario.specs Scenario.readers
           (10, 10) tt Scenario.uint8 3%Z true None [] Scenario.open_tif
           (Scenario.table_of six_cells [2; 3])).
  reflexivity.
Defined.

Example chunk_of_six_cells :
  getter (Scenario.table_of six_cells [2; 3]) [Slice 1 2; Slice 2 3]
  = NDArray Scenario.obj [1; 1] [Scenario.covering].
Proof. reflexivity. Qed.

(** * What a block of the array computes *)

Lemma product_map {A B} (f : A -> B) (ls : list (list A)) :
  itertools.product (map (map f) ls) = map (map f) (itertools.product ls).
Proof.
  induction ls as [|l ls IH]; simpl.
  - reflexivity.
  - rewrite IH. clear IH.
    induction l as [|x l IHl]; simpl.
    + reflexivity.
    + rewrite map_app, IHl. f_equal.
      rewrite !map_map. reflexivity.
Qed.

Lemma combine_map_both {A B C} (f : A -> B) (g : A -> C) (l : list A) :
  combine (map f l) (map g l) = map (fun x => (f x, g x)) l.
Proof. induction l as [|x l IH]; simpl; [reflexivity | now rewrite IH]. Qed.

Lemma map_fst_combine_le {A B} (l1 : list A) :
  forall l2 : list B,
    List.length l1 <= List.length l2 -> map fst (combine l1 l2) = l1.
Proof.
  induction l1 as [|x l1 IH]; intros [|y l2] Hlen; simpl in *;
    try reflexivity; try lia.
  f_equal. apply IH. lia.
Qed.

Lemma map_snd_combine_le {A B} (l1 : list A) :
  forall l2 : list B,
    List.length l2 <= List.length l1 -> map snd (combine l1 l2) = l2.
Proof.
  induction l1 as [|x l1 IH]; intros [|y l2] Hlen; simpl in *;
    try reflexivity; try lia.
  f_equal. apply IH. lia.
Qed.

(** The numbered slices of an axis. *)
Definition axis_pairs (c : list Z) : list (nat * slice) :=
  combine (seq 0 (List.length c)) (dask.axis_slices c).

Lemma block_tasks_as_pairs (cs : list (list Z)) :
  combine (dask.block_keys cs) (dask.slices_from_chunks cs)
  = map (fun ps => (map fst ps, map snd ps))
      (itertools.product (map axis_pairs cs)).
Proof.
  unfold dask.block_keys, dask.slices_from_chunks.
  assert (Hk : map (fun c => seq 0 (List.length c)) cs
               = map (map fst) (map axis_pairs cs)).
  { rewrite map_map. apply map_ext. intros c. unfold axis_pairs.
    rewrite map_fst_combine_le; [reflexivity|].
    rewrite length_seq, axis_slices_length. lia. }
  assert (Hs : map dask.axis_slices cs = map (map snd) (map axis_pairs cs)).
  { rewrite map_map. apply map_ext. intros c. unfold axis_pairs.
    rewrite map_snd_combine_le; [reflexivity|].
    rewrite length_seq, axis_slices_length. lia. }
  rewrite Hk, Hs, !product_map. apply combine_map_both.
Qed.

Lemma find_app_first {A} (f : A -> bool) (l1 l2 : list A) :
  find f (l1 ++ l2)
  = match find f l1 with
    | Some x => Some x
    | None => find f l2
    end.
Proof.
  induction l1 as [|x l1 IH]; simpl; [reflexivity|].
  destruct (f x); [reflexivity | exact IH].
Qed.

Lemma find_map_inner {A B} (f : B -> bool) (g : A -> B) (l : list A) :
  find f (map g l) = option_map g (find (fun x => f (g x)) l).
Proof.
  induction l as [|x l IH]; simpl; [reflexivity|].
  destruct (f (g x)); [reflexivity | exact IH].
Qed.

Lemma find_never {A} (f : A -> bool) (l : list A) :
  (forall x, f x = false) -> find f l = None.
Proof.
  intros Hf. induction l as [|x l IH]; simpl; [reflexivity|].
  now rewrite Hf.
Qed.

(** In the product of numbered axes, the block whose numbers are those of
    [target] is [target]. *)
Lemma find_in_product (PS : list (list (nat * slice))) :
  forall target : list (nat * slice),
    Forall2 (fun p l => In p l) target PS ->
    Forall (fun l => NoDup (map fst l)) PS ->
    find (fun ps => list_nat_eqb (map fst ps) (map fst target))
      (itertools.product PS)
    = Some target.
Proof.
  induction PS as [|l PS IH]; intros target Hin Hnodup.
  - inversion Hin; subst. reflexivity.
  - inversion Hin as [|p ? tgt ? Hp Htgt]; subst.
    inversion Hnodup as [|? ? Hl HPS]; subst.
    specialize (IH tgt Htgt HPS). simpl.
    clear Hin Hnodup.
    induction l as [|q l IHl]; [contradiction|].
    simpl. rewrite find_app_first, find_map_inner. simpl.
    destruct (Nat.eqb_spec (fst q) (fst p)) as [Heq|Hne].
    + assert (q = p) as ->.
      { destruct Hp as [Hqp|Hpl]; [exact Hqp|].
        exfalso. simpl in Hl. inversion Hl as [|? ? Hnot _]; subst.
        apply Hnot. rewrite Heq. now apply in_map. }
      simpl. rewrite IH. reflexivity.
    + rewrite find_never by reflexivity. simpl.
      apply IHl.
      * destruct Hp as [Hqp|Hpl]; [|exact Hpl].
        exfalso. apply Hne. now rewrite Hqp.
      * simpl in Hl. now inversion Hl.
Qed.

Lemma axis_pairs_keys (c : list Z) :
  map fst (axis_pairs c) = seq 0 (List.length c).
Proof.
  unfold axis_pairs. apply map_fst_combine_le.
  rewrite length_seq, axis_slices_length. lia.
Qed.

Lemma nth_error_combine_both {A B} (l1 : list A) :
  forall (l2 : list B) (k : nat) a b,
    nth_error l1 k = Some a -> nth_error l2 k = Some b ->
    nth_error (combine l1 l2) k = Some (a, b).
Proof.
  induction l1 as [|x l1 IH]; intros [|y l2] [|k] a b Ha Hb;
    simpl in *; try discriminate; try congruence.
  now apply IH.
Qed.

Lemma nth_error_tl {A} (l : list A) (k : nat) :
  nth_error (tl l) k = nth_error l (S k).
Proof. destruct l; [now destruct k | reflexivity]. Qed.

(** The slice of block [k] of an axis. *)
Lemma axis_slices_nth (c : list Z) (k : nat) :
  k < List.length c ->
  nth_error (dask.axis_slices c) k = Some (window_of (Z.of_nat k, c)).
Proof.
  intros Hk. unfold dask.axis_slices.
  rewrite nth_error_map.
  rewrite nth_error_combine_both
    with (a := cum c (Z.of_nat k)) (b := cum c (Z.of_nat k + 1)).
  - reflexivity.
  - rewrite (@accumulate_nth c 0%Z k) by lia.
    unfold cum. rewrite Nat2Z.id. reflexivity.
  - rewrite nth_error_tl, (@accumulate_nth c 0%Z (S k)) by lia.
    unfold cum. replace (Z.to_nat (Z.of_nat k + 1)) with (S k) by lia.
    reflexivity.
Qed.

Lemma axis_pairs_nth (c : list Z) (k : nat) :
  k < List.length c ->
  In (k, window_of (Z.of_nat k, c)) (axis_pairs c).
Proof.
  intros Hk. unfold axis_pairs.
  apply nth_error_In with (n := k).
  apply nth_error_combine_both.
  - rewrite nth_error_seq. destruct (Nat.ltb_spec k (List.length c)); [reflexivity | lia].
  - now apply axis_slices_nth.
Qed.

(** The task of a block: its key is found, with the slices of the block
    along each axis. *)
Lemma find_block_task (cs : list (list Z)) (idx : list nat) :
  Forall2 (fun i c => i < List.length c) idx cs ->
  find (fun t => list_nat_eqb (fst t) idx)
    (combine (dask.block_keys cs) (dask.slices_from_chunks cs))
  = Some (idx, map (fun ic => window_of (Z.of_nat (fst ic), snd ic))
                 (combine idx cs)).
Proof.
  intros Hin. rewrite block_tasks_as_pairs, find_map_inner. simpl.
  set (target := map (fun ic => (fst ic, window_of (Z.of_nat (fst ic), snd ic)))
                   (combine idx cs)).
  assert (Hkeys : map fst target = idx).
  { unfold target. rewrite map_map. simpl.
    clear target. induction Hin; simpl; [reflexivity | now f_equal]. }
  assert (Hsl : map snd target
                = map (fun ic => window_of (Z.of_nat (fst ic), snd ic))
                    (combine idx cs)).
  { unfold target. now rewrite map_map. }
  assert (Hfind :
    find (fun ps => list_nat_eqb (map fst ps) (map fst target))
      (itertools.product (map axis_pairs cs)) = Some target).
  { apply find_in_product.
    - unfold target. clear target Hkeys Hsl.
      induction Hin as [|i c idx cs Hi _ IH]; simpl; constructor.
      + now apply axis_pairs_nth.
      + exact IH.
    - apply Forall_forall. intros l Hl.
      apply in_map_iff in Hl. destruct Hl as (c & <- & _).
      rewrite axis_pairs_keys. apply seq_NoDup. }
  rewrite Hkeys in Hfind. rewrite Hfind. simpl. now rewrite Hkeys, Hsl.
Qed.

Lemma pieces_skipn {A} (n : nat) :
  forall (t k : nat) (l : list A),
    t <= k ->
    skipn t (pieces n k l) = pieces n (k - t) (skipn (t * n) l).
Proof.
  induction t as [|t IH]; intros k l Hk.
  - simpl. now rewrite Nat.sub_0_r.
  - destruct k as [|k]; [lia|]. simpl.
    rewrite IH by lia. f_equal.
    rewrite skipn_skipn. f_equal. lia.
Qed.

Lemma firstn_one_skipn {A} (l : list A) (k : nat) (x : A) :
  nth_error l k = Some x -> firstn 1 (skipn k l) = [x].
Proof.
  revert k. induction l as [|y l IH]; intros [|k] H; simpl in *;
    try discriminate.
  - now injection H as ->.
  - now apply IH.
Qed.

(** The block of a two-dimensional array at row [t], column [b]. *)
Lemma getter_one_cell {D A} (x : ndarray D A) (rows cols t b : nat) (cell : A) :
  nd_shape x = [rows; cols] ->
  t < rows -> b < cols ->
  nth_error (nd_data x) (t * cols + b) = Some cell ->
  getter x [Slice (Z.of_nat t) (Z.of_nat t + 1);
            Slice (Z.of_nat b) (Z.of_nat b + 1)]
  = NDArray (nd_dtype x) [1; 1] [cell].
Proof.
  intros Hshape Ht Hb Hcell. unfold getter. rewrite Hshape. f_equal.
  - simpl. rewrite !Nat2Z.id.
    replace (Z.to_nat (Z.of_nat t + 1)) with (S t) by lia.
    replace (Z.to_nat (Z.of_nat b + 1)) with (S b) by lia.
    f_equal; [|f_equal]; lia.
  - cbn [slice_data start stop]. rewrite !Nat2Z.id.
    replace (Z.to_nat (Z.of_nat t + 1) - t) with 1 by lia.
    replace (Z.to_nat (Z.of_nat b + 1) - b) with 1 by lia.
    rewrite pieces_skipn by lia.
    destruct (rows - t) as [|r] eqn:Hr; [lia|].
    cbn [pieces firstn map List.concat].
    rewrite pieces_skipn by lia.
    destruct (cols - b) as [|q] eqn:Hq; [lia|].
    cbn [pieces firstn map List.concat]. rewrite !app_nil_r.
    apply firstn_one_skipn.
    assert (Hps : prod_shape [cols] = cols) by (simpl; lia).
    assert (Hp1 : b * prod_shape [] = b) by (simpl; lia).
    rewrite Hps, Hp1, nth_error_firstn.
    destruct (Nat.ltb_spec b cols) as [_|Hge]; [|lia].
    rewrite nth_error_skipn. exact Hcell.
Qed.

Section BlockSemantics.
Context `{NP : NumPy} `{RIO : Rasterio}.
Context `{RS : !RasterSpecs} `{RP : !ReaderProtocol}.
Context `{TK : dask.Tokenize}.

Lemma compute_key_blockwise (name : string) (func : BlockFunc)
  (out_ind : string) (args : list (BlockwiseArg * string))
  (annotations : list (string * bool)) (older : list Layer)
  (idx : list nat) :
  compute_key (BlockwiseLayer name func out_ind args annotations :: older)
    name idx
  = (vals <-
       mapM
         (fun arg_ind : BlockwiseArg * string =>
            sub <- lift (select out_ind (snd arg_ind) idx) ;;
            match fst arg_ind with
            | arg_array n _ => compute_key older n sub
            | arg_dep dep =>
                lift
                  (sl <~ SlicesDep.getitem dep (map Z.of_nat sub) ;;
                   Ok (v_slices sl))
            end)
         args ;;
     apply_block_func func vals)%py.
Proof. cbn [compute_key layer_name]. now rewrite String.eqb_refl. Qed.

Lemma compute_key_materialized (name : string)
  (source : ndarray np_dtype AssetEntry)
  (tasks : list (list nat * list slice)) (older : list Layer)
  (idx : list nat) :
  compute_key (MaterializedLayer name source tasks :: older) name idx
  = match find (fun t => list_nat_eqb (fst t) idx) tasks with
    | Some (_, sl) => ret (v_assets (getter source sl))
    | None => raise KeyError
    end.
Proof. cbn [compute_key layer_name]. now rewrite String.eqb_refl. Qed.

Lemma select_tb_of_tbyx (t b y x : nat) :
  select "tbyx" "tb" [t; b; y; x] = Ok [t; b].
Proof. reflexivity. Qed.

Lemma select_yx_of_tbyx (t b y x : nat) :
  select "tbyx" "yx" [t; b; y; x] = Ok [y; x].
Proof. reflexivity. Qed.

Lemma select_tb_of_tb (t b : nat) : select "tb" "tb" [t; b] = Ok [t; b].
Proof. reflexivity. Qed.

Variables (asset_table : ndarray np_dtype AssetEntry) (spec : RasterSpec).
Variables (resampling : Resampling) (dtype : np_dtype).
Variables (fill_value : scalar) (rescale : bool) (reader : ReaderType).
Variables (gdal_env : option LayeredEnv).
Variable errors_as_nodata : option (list string).

Local Notation built :=
  (rasters asset_table spec resampling dtype fill_value rescale reader
     gdal_env errors_as_nodata).

Lemma compute_block_of_built (cy cx : list Z) (rows cols t b y x : nat)
  (world : World) :
  nd_shape asset_table = [rows; cols] ->
  t < List.length (unit_chunks rows) ->
  b < List.length (unit_chunks cols) ->
  y < List.length cy ->
  x < List.length cx ->
  compute_block (built [cy; cx]) [t; b; y; x] world
  = match
      asset_table_to_reader_and_window
        (getter asset_table
           [window_of (Z.of_nat t, unit_chunks rows);
            window_of (Z.of_nat b, unit_chunks cols)])
        spec resampling dtype fill_value rescale gdal_env
        (or_empty errors_as_nodata) reader
    with
    | Ok reader_table =>
        match
          fetch_raster_window reader_table
            [window_of (Z.of_nat y, cy); window_of (Z.of_nat x, cx)] world
        with
        | (Ok pixels, world') => (Ok (v_pixels pixels), world')
        | (Err e, world') => (Err e, world')
        end
    | Err e => (Err e, world)
    end.
Proof.
  intros Hshape Ht Hb Hy Hx.
  unfold compute_block, rasters.
  cbn [dask_graph array_name rev app].
  unfold fetch_layer, readers_layer, table_layer.
  rewrite compute_key_blockwise.
  cbn [mapM fst snd].
  unfold bind at 1 2 3. unfold lift at 1.
  rewrite select_tb_of_tbyx.
  rewrite compute_key_blockwise.
  cbn [mapM fst snd].
  unfold bind at 1 2 3. unfold lift at 1.
  rewrite select_tb_of_tb.
  rewrite compute_key_materialized.
  unfold table_chunks. rewrite Hshape. cbn [map].
  rewrite find_block_task
    by (constructor; [exact Ht | constructor; [exact Hb | constructor]]).
  cbn [combine map fst snd].
  unfold open_func.
  assert (Hwin :
    SlicesDep.getitem (SlicesDep.init [cy; cx]) (map Z.of_nat [y; x])
    = Ok [window_of (Z.of_nat y, cy); window_of (Z.of_nat x, cx)]).
  { change (SlicesDep.getitem (SlicesDep.init [cy; cx]) (map Z.of_nat [y; x]))
      with (SlicesDep.getitem_zip [Z.of_nat y; Z.of_nat x]
              (map (fun c => itertools.accumulate c 0%Z) [cy; cx])).
    rewrite getitem_zip_init; [reflexivity|].
    constructor; [unfold in_range; simpl; lia|].
    constructor; [unfold in_range; simpl; lia | constructor]. }
  rewrite select_yx_of_tbyx.
  cbv beta iota delta [bind ret lift raise apply_block_func].
  rewrite Hwin.
  destruct (asset_table_to_reader_and_window _ _ _ _ _ _ _ _ _)
    as [reader_table|e]; cbv beta iota delta [rbind]; reflexivity.
Qed.
End BlockSemantics.

Lemma zsum_firstn_ones (n : nat) :
  forall k : nat, zsum (firstn k (repeat 1%Z n)) = Z.of_nat (Nat.min k n).
Proof.
  induction n as [|n IH]; intros [|k]; try reflexivity.
  change (zsum (firstn (S k) (repeat 1%Z (S n))))
    with (1 + zsum (firstn k (repeat 1%Z n)))%Z.
  rewrite IH. rewrite <- Nat.succ_min_distr. lia.
Qed.

Lemma window_of_unit_chunks (rows t : nat) :
  t < rows ->
  window_of (Z.of_nat t, unit_chunks rows)
  = Slice (Z.of_nat t) (Z.of_nat t + 1).
Proof.
  intros Ht. rewrite unit_chunks_nonempty_axis by lia.
  unfold window_of, cum. simpl fst. simpl snd.
  rewrite Nat2Z.id.
  replace (Z.to_nat (Z.of_nat t + 1)) with (S t) by lia.
  rewrite !zsum_firstn_ones. f_equal; lia.
Qed.

Section OneCell.
Context `{NP : NumPy} `{RIO : Rasterio}.
Context `{RS : !RasterSpecs} `{RP : !ReaderProtocol}.

(** Opening a block of one cell is making that cell's entry. *)
Lemma asset_table_to_reader_and_window_one_cell
  (spec : RasterSpec) (resampling : Resampling) (dtype : np_dtype)
  (fill_value : scalar) (rescale : bool) (gdal_env : option LayeredEnv)
  (errors_as_nodata : list string) (reader : ReaderType)
  (d : np_dtype) (cell : AssetEntry) :
  asset_table_to_reader_and_window (NDArray d [1; 1] [cell]) spec resampling
    dtype fill_value rescale gdal_env errors_as_nodata reader
  = match
      reader_table_entry spec resampling dtype fill_value rescale gdal_env
        errors_as_nodata reader cell
    with
    | Ok entry => Ok (NDArray object_ [1; 1] [entry])
    | Err e => Err e
    end.
Proof.
  unfold asset_table_to_reader_and_window. simpl.
  now destruct (reader_table_entry _ _ _ _ _ _ _ _ cell).
Qed.

(** The builder raises no [AssertionError]. *)
Lemma reader_table_entry_no_assertion
  (spec : RasterSpec) (resampling : Resampling) (dtype : np_dtype)
  (fill_value : scalar) (rescale : bool) (gdal_env : option LayeredEnv)
  (errors_as_nodata : list string) (reader : ReaderType)
  (cell : AssetEntry) :
  reader_table_entry spec resampling dtype fill_value rescale gdal_env
    errors_as_nodata reader cell <> Err AssertionError.
Proof.
  unfold reader_table_entry, np_array.
  destruct (url cell).
  - destruct (bounds cell) as [[[west south] east] north].
    destruct (from_bounds west south east north (spec_transform spec) 0);
      simpl; discriminate.
  - destruct (np_cast fill_value dtype); simpl; discriminate.
Qed.

(** Given two slices and one cell, the executor's assertions hold. *)
Lemma fetch_one_cell_no_assertion
  (reader_entry : ndarray np_dtype ReaderTableEntry)
  (rows cols : slice) (world : World) :
  nd_size reader_entry = 1 ->
  fst (fetch_raster_window reader_entry [rows; cols] world)
  <> Err AssertionError.
Proof.
  intros Hsz. unfold fetch_raster_window, bind, assert, lift, ret, raise.
  rewrite Hsz. simpl. unfold nd_item.
  destruct (nd_data reader_entry) as [|entry [|? ?]];
    try (simpl; discriminate).
  destruct (from_slices rows cols) as [cw|]; [|simpl; discriminate].
  simpl.
  destruct entry as [reader asset_window | fill_arr].
  - destruct (intersect cw asset_window).
    + unfold read.
      destruct (reader_read reader cw world) as [[cls|data] w];
        simpl; discriminate.
    + unfold np_array.
      destruct (np_cast (reader_fill_value reader) (reader_dtype reader));
        simpl; [|discriminate].
      unfold broadcast_to.
      repeat match goal with
             | |- context [if ?b then _ else _] => destruct b
             end; simpl; discriminate.
  - unfold broadcast_to.
    repeat match goal with
           | |- context [if ?b then _ else _] => destruct b
           end; simpl; discriminate.
Qed.

(** With no cell, the second assertion fails. *)
Lemma fetch_no_cell_asserts
  (reader_entry : ndarray np_dtype ReaderTableEntry)
  (rows cols : slice) (world : World) :
  nd_size reader_entry = 0 ->
  fetch_raster_window reader_entry [rows; cols] world
  = (Err AssertionError, world).
Proof.
  intros Hsz. unfold fetch_raster_window, bind, assert, lift, ret, raise.
  now rewrite Hsz.
Qed.

End OneCell.

Section BlockTheorems.
Context `{NP : NumPy} `{RIO : Rasterio}.
Context `{RS : !RasterSpecs} `{RP : !ReaderProtocol}.
Context `{TK : dask.Tokenize}.

Variables (asset_table : ndarray np_dtype AssetEntry) (spec : RasterSpec).
Variables (chunksize : Z) (resampling : Resampling) (dtype : np_dtype).
Variables (fill_value : scalar) (rescale : bool) (reader : ReaderType).
Variables (gdal_env : option LayeredEnv).
Variable errors_as_nodata : option (list string).

Local Notation run :=
  (run_items_to_dask asset_table spec chunksize resampling dtype fill_value
     rescale reader gdal_env errors_as_nodata).

(** What one block of the array computes: the executor on the entry of
    one cell and on the window of one chunk. *)
Definition one_fetch (cell : AssetEntry) (rows cols : slice)
  : M World BlockValue :=
  fun world =>
    match
      reader_table_entry spec resampling dtype fill_value rescale gdal_env
        (or_empty errors_as_nodata) reader cell
    with
    | Ok entry =>
        match
          fetch_raster_window (NDArray object_ [1; 1] [entry]) [rows; cols]
            world
        with
        | (Ok pixels, world') => (Ok (v_pixels pixels), world')
        | (Err e, world') => (Err e, world')
        end
    | Err e => (Err e, world)
    end.

Lemma block_of_nonempty_table (cy cx : list Z) (rows cols t b y x : nat)
  (cell : AssetEntry) (world : World) :
  nd_shape asset_table = [rows; cols] ->
  t < rows -> b < cols ->
  nth_error (nd_data asset_table) (t * cols + b) = Some cell ->
  y < List.length cy -> x < List.length cx ->
  compute_block
    (rasters asset_table spec resampling dtype fill_value rescale reader
       gdal_env errors_as_nodata [cy; cx])
    [t; b; y; x] world
  = one_fetch cell (window_of (Z.of_nat y, cy)) (window_of (Z.of_nat x, cx))
      world.
Proof.
  intros Hshape Ht Hb Hcell Hy Hx.
  rewrite compute_block_of_built with (rows := rows) (cols := cols);
    try assumption; try (rewrite unit_chunks_length; lia).
  rewrite !window_of_unit_chunks by assumption.
  rewrite getter_one_cell with (rows := rows) (cols := cols) (cell := cell)
    by assumption.
  rewrite asset_table_to_reader_and_window_one_cell.
  unfold one_fetch.
  now destruct (reader_table_entry _ _ _ _ _ _ _ _ cell).
Qed.

(** X11.  Each block of the array [items_to_dask] returns is one call of
    the executor on one cell: computing block [(t, b, y, x)] makes the
    reader-table entry of the asset-table cell at row [t], column [b]
    (raising what that conversion raises) and runs [fetch_raster_window]
    on the one-cell reader table holding it and on the two slices the
    window index gives for row chunk [y] and column chunk [x]. *)
Theorem items_to_dask_block_is_one_fetch
  (created created' : list Layer) arr (rows cols : nat) :
  run created = (Ok arr, created') ->
  nd_shape asset_table = [rows; cols] ->
  exists cy cx,
    skipn 2 (chunks arr) = [cy; cx]
    /\ forall (t b y x : nat) (cell : AssetEntry) (world : World),
         t < rows -> b < cols ->
         nth_error (nd_data asset_table) (t * cols + b) = Some cell ->
         y < List.length cy -> x < List.length cx ->
         compute_block arr [t; b; y; x] world
         = one_fetch cell (window_of (Z.of_nat y, cy))
             (window_of (Z.of_nat x, cx)) world.
Proof.
  intros Hrun Hshape.
  destruct (items_to_dask_returns_inv _ _ _ _ _ _ _ _ _ _ _ Hrun)
    as (_ & chunks_yx & Hn & -> & _).
  destruct (normalize_chunks_two _ _ _ Hn) as (cy & cx & ->).
  exists cy, cx. split.
  - unfold rasters, table_chunks. simpl. now rewrite Hshape.
  - intros t b y x cell world Ht Hb Hcell Hy Hx.
    now apply block_of_nonempty_table with (rows := rows) (cols := cols).
Qed.

(** X12.  On a well-formed asset table with at least one item and one
    asset, computing any block of the array never raises
    [AssertionError]: every task hands [fetch_raster_window] exactly one
    cell and exactly two slices. *)
Theorem items_to_dask_blocks_meet_assertions
  (created created' : list Layer) arr (rows cols : nat) :
  run created = (Ok arr, created') ->
  nd_shape asset_table = [rows; cols] ->
  well_formed asset_table ->
  1 <= rows -> 1 <= cols ->
  forall (idx : list nat) (world : World),
    Forall2 (fun i n => i < n) idx (array_numblocks arr) ->
    fst (compute_block arr idx world) <> Err AssertionError.
Proof.
  intros Hrun Hshape Hwf Hrows Hcols idx world Hidx.
  destruct (items_to_dask_returns_inv _ _ _ _ _ _ _ _ _ _ _ Hrun)
    as (_ & chunks_yx & Hn & -> & _).
  destruct (normalize_chunks_two _ _ _ Hn) as (cy & cx & ->).
  unfold array_numblocks, rasters, table_chunks in Hidx. simpl in Hidx.
  rewrite Hshape in Hidx. simpl in Hidx.
  rewrite !unit_chunks_length in Hidx.
  inversion Hidx as [|t ? idx1 ? Ht H1]; subst.
  inversion H1 as [|b ? idx2 ? Hb H2]; subst.
  inversion H2 as [|y ? idx3 ? Hy H3]; subst.
  inversion H3 as [|x ? idx4 ? Hx H4]; subst.
  inversion H4; subst.
  assert (Hlen : t * cols + b < List.length (nd_data asset_table)).
  { unfold well_formed, nd_size in Hwf. rewrite Hwf, Hshape. simpl. nia. }
  destruct (nth_error (nd_data asset_table) (t * cols + b)) as [cell|]
    eqn:Hcell; [|apply nth_error_None in Hcell; lia].
  rewrite block_of_nonempty_table
    with (rows := rows) (cols := cols) (cell := cell);
    try assumption; try lia.
  unfold one_fetch.
  destruct (reader_table_entry _ _ _ _ _ _ _ _ cell) as [entry|e] eqn:He.
  - pose proof (@fetch_one_cell_no_assertion _ _ _
                  (NDArray object_ [1; 1] [entry])
                  (window_of (Z.of_nat y, cy)) (window_of (Z.of_nat x, cx))
                  world eq_refl) as Hno.
    destruct (fetch_raster_window _ _ world) as [[pixels|e] w'];
      simpl in *; [discriminate | congruence].
  - simpl. intros [= ->].
    now apply reader_table_entry_no_assertion in He.
Qed.


(** A block of an array built on a table without items has no cell to
    work on. *)
Lemma block_of_empty_item_axis (cy cx : list Z) (cols : nat) :
  nd_shape asset_table = [0; cols] ->
  forall (idx : list nat) (world : World),
    Forall2 (fun i n => i < n) idx
      (array_numblocks
         (rasters asset_table spec resampling dtype fill_value rescale
            reader gdal_env errors_as_nodata [cy; cx])) ->
    compute_block
      (rasters asset_table spec resampling dtype fill_value rescale reader
         gdal_env errors_as_nodata [cy; cx])
      idx world
    = (Err AssertionError, world).
Proof.
  intros Hshape idx world Hidx.
  unfold array_numblocks, rasters, table_chunks in Hidx. simpl in Hidx.
  rewrite Hshape in Hidx. simpl in Hidx.
  inversion Hidx as [|t ? idx1 ? Ht H1]; subst.
  inversion H1 as [|b ? idx2 ? Hb H2]; subst.
  inversion H2 as [|y ? idx3 ? Hy H3]; subst.
  inversion H3 as [|x ? idx4 ? Hx H4]; subst.
  inversion H4; subst.
  rewrite compute_block_of_built with (rows := 0) (cols := cols);
    try assumption.
  unfold getter, asset_table_to_reader_and_window. rewrite Hshape.
  cbn [slice_data pieces nd_data nd_shape].
  rewrite skipn_nil, firstn_nil. cbn [map List.concat mapR rbind].
  rewrite fetch_no_cell_asserts; [reflexivity|].
  unfold nd_size. cbn [nd_shape slice_shape prod_shape fold_right].
  rewrite !Nat.min_0_r. reflexivity.
Qed.

(** X13.  An asset table without items still yields an array, with one
    block of no items along the item axis; computing any of its blocks
    fails the executor's assertion on the size of the reader entry, and
    nothing is read. *)
Theorem items_to_dask_block_of_empty_item_axis
  (created created' : list Layer) arr (cols : nat) :
  run created = (Ok arr, created') ->
  nd_shape asset_table = [0; cols] ->
  forall (idx : list nat) (world : World),
    Forall2 (fun i n => i < n) idx (array_numblocks arr) ->
    compute_block arr idx world = (Err AssertionError, world).
Proof.
  intros Hrun Hshape idx world Hidx.
  destruct (items_to_dask_returns_inv _ _ _ _ _ _ _ _ _ _ _ Hrun)
    as (_ & chunks_yx & Hn & -> & _).
  destruct (normalize_chunks_two _ _ _ Hn) as (cy & cx & ->).
  now apply block_of_empty_item_axis with (cols := cols).
Qed.

End BlockTheorems.

(** The array built from a table with no item. *)
Definition no_items_array : Array :=
  rasters (Scenario.table_of [] [0; 1]) (10, 10) tt Scenario.uint8
    3%Z true Scenario.open_tif None None [[5; 5]; [5; 5]]%Z.

Lemma no_items_array_built :
  Scenario.stack [] [0; 1] 5 Scenario.uint8 3
  = (Ok no_items_array, dask_graph no_items_array).
Proof.
  apply (@items_to_dask_ok
           Scenario.numpy Scenario.rasterio Scenario.specs Scenario.readers
           Scenario.tokens (Scenario.table_of [] [0; 1]) (10, 10)
           5%Z tt Scenario.uint8 3%Z true Scenario.open_tif None None []).
  - reflexivity.
  - lia.
Defined.

Lemma items_to_dask_block_is_one_fetch_witness :
  exists cy cx,
    skipn 2 (chunks six_cells_array) = [cy; cx]
    /\ forall (t b y x : nat) (cell : AssetEntry) (world : World),
         t < 2 -> b < 3 ->
         nth_error (nd_data (Scenario.table_of six_cells [2; 3])) (t * 3 + b)
         = Some cell ->
         y < List.length cy -> x < List.length cx ->
         compute_block six_cells_array [t; b; y; x] world
         = one_fetch (10, 10) tt Scenario.uint8 3%Z true Scenario.open_tif
             None None cell (window_of (Z.of_nat y, cy))
             (window_of (Z.of_nat x, cx)) world.
Proof.
  apply (@items_to_dask_block_is_one_fetch
           Scenario.numpy Scenario.rasterio Scenario.specs Scenario.readers
           Scenario.tokens (Scenario.table_of six_cells [2; 3]) (10, 10)
           4%Z tt Scenario.uint8 3%Z true Scenario.open_tif None None
           [] (dask_graph six_cells_array) six_cells_array 2 3).
  - exact six_cells_array_built.
  - reflexivity.
Defined.

Lemma items_to_dask_blocks_meet_assertions_witness :
  fst (compute_block six_cells_array [1; 2; 2; 0] 0) <> Err AssertionError.
Proof.
  apply (@items_to_dask_blocks_meet_assertions
           Scenario.numpy Scenario.rasterio Scenario.specs Scenario.readers
           Scenario.tokens (Scenario.table_of six_cells [2; 3]) (10, 10)
           4%Z tt Scenario.uint8 3%Z true Scenario.open_tif None None
           [] (dask_graph six_cells_array) six_cells_array 2 3).
  - exact six_cells_array_built.
  - reflexivity.
  - reflexivity.
  - lia.
  - lia.
  - repeat constructor.
Defined.

Lemma items_to_dask_block_of_empty_item_axis_witness :
  compute_block no_items_array [0; 0; 1; 1] 7 = (Err AssertionError, 7).
Proof.
  apply (@items_to_dask_block_of_empty_item_axis
           Scenario.numpy Scenario.rasterio Scenario.specs Scenario.readers
           Scenario.tokens (Scenario.table_of [] [0; 1]) (10, 10)
           5%Z tt Scenario.uint8 3%Z true Scenario.open_tif None None
           [] (dask_graph no_items_array) no_items_array 1).
  - exact no_items_array_built.
  - reflexivity.
  - repeat constructor.
Defined.

Section BlocksWithoutAsset.
Context `{NP : NumPy} `{RIO : Rasterio}.
Context `{RS : !RasterSpecs} `{RP : !ReaderProtocol}.
Context `{TK : dask.Tokenize}.

Variables (asset_table : ndarray np_dtype AssetEntry) (spec : RasterSpec).
Variables (chunksize : Z) (resampling : Resampling) (dtype : np_dtype).
Variables (fill_value : scalar) (rescale : bool) (reader : ReaderType).
Variables (gdal_env : option LayeredEnv).
Variable errors_as_nodata : option (list string).

(** X14.  Where the asset table has no URL, the array is fill: for a cell
    at [(t, b)] whose URL is absent, every block [(t, b, y, x)] of the
    array [items_to_dask] returns computes to the constant array of the
    converted fill value, in the output dtype, of shape
    [(1, 1, rows, cols)] of the block's window; no reader exists for the
    cell and the world is not touched. *)
Theorem items_to_dask_block_without_url
  (created created' : list Layer) arr (rows cols : nat) :
  run_items_to_dask asset_table spec chunksize resampling dtype fill_value
    rescale reader gdal_env errors_as_nodata created
  = (Ok arr, created') ->
  nd_shape asset_table = [rows; cols] ->
  exists cy cx,
    skipn 2 (chunks arr) = [cy; cx]
    /\ forall (t b y x : nat) (cell : AssetEntry) (v : scalar)
              (cw : Window) (world : World),
         t < rows -> b < cols ->
         nth_error (nd_data asset_table) (t * cols + b) = Some cell ->
         url cell = None ->
         np_cast fill_value dtype = Some v ->
         y < List.length cy -> x < List.length cx ->
         from_slices (window_of (Z.of_nat y, cy)) (window_of (Z.of_nat x, cx))
         = Some cw ->
         compute_block arr [t; b; y; x] world
         = (Ok (v_pixels
                  (NDArray dtype
                     [1; 1; fst (window_shape cw); snd (window_shape cw)]
                     (repeat v
                        (fst (window_shape cw) * snd (window_shape cw))))),
            world).
Proof.
  intros Hrun Hshape.
  destruct (items_to_dask_returns_inv _ _ _ _ _ _ _ _ _ _ _ Hrun)
    as (_ & chunks_yx & Hn & -> & _).
  destruct (normalize_chunks_two _ _ _ Hn) as (cy & cx & ->).
  exists cy, cx. split.
  { unfold rasters, table_chunks. simpl. now rewrite Hshape. }
  intros t b y x cell v cw world Ht Hb Hcell Hurl Hcast Hy Hx Hcw.
  rewrite block_of_nonempty_table
    with (rows := rows) (cols := cols) (cell := cell) by assumption.
  unfold one_fetch, reader_table_entry. rewrite Hurl.
  rewrite (np_array_ok _ _ Hcast). cbn [rbind].
  unfold fetch_raster_window, bind, assert, lift, ret, raise.
  cbn [List.length Nat.eqb nd_size nd_shape prod_shape fold_right Nat.mul
       Nat.add nd_item nd_data from_slices_star].
  rewrite Hcw. cbn [of_option].
  rewrite broadcast_to_scalar.
  unfold full, block_shape.
  replace (prod_shape [1; 1; fst (window_shape cw); snd (window_shape cw)])
    with (fst (window_shape cw) * snd (window_shape cw))
    by (simpl; lia).
  reflexivity.
Qed.

End BlocksWithoutAsset.

Lemma items_to_dask_block_without_url_witness :
  exists cy cx,
    skipn 2 (chunks six_cells_array) = [cy; cx]
    /\ forall (t b y x : nat) (cell : AssetEntry) (v : scalar)
              (cw : Window) (world : World),
         t < 2 -> b < 3 ->
         nth_error (nd_data (Scenario.table_of six_cells [2; 3])) (t * 3 + b)
         = Some cell ->
         url cell = None ->
         np_cast 3%Z Scenario.uint8 = Some v ->
         y < List.length cy -> x < List.length cx ->
         from_slices (window_of (Z.of_nat y, cy)) (window_of (Z.of_nat x, cx))
         = Some cw ->
         compute_block six_cells_array [t; b; y; x] world
         = (Ok (v_pixels
                  (NDArray Scenario.uint8
                     [1; 1; fst (window_shape cw); snd (window_shape cw)]
                     (repeat v
                        (fst (window_shape cw) * snd (window_shape cw))))),
            world).
Proof.
  apply (@items_to_dask_block_without_url
           Scenario.numpy Scenario.rasterio Scenario.specs Scenario.readers
           Scenario.tokens (Scenario.table_of six_cells [2; 3]) (10, 10)
           4%Z tt Scenario.uint8 3%Z true Scenario.open_tif None None
           [] (dask_graph six_cells_array) six_cells_array 2 3).
  - exact six_cells_array_built.
  - reflexivity.
Defined.

(** The three scenarios on a ten by ten grid in chunks of five: a file
    covering the grid is read, a cell without file and a file elsewhere
    give fill. *)
Example scenario_covering :
  match
    Scenario.block [Scenario.covering] [1; 1] 5 Scenario.uint8 3 [0; 0; 1; 0]
  with
  | (Ok (v_pixels a), reads) =>
      nd_shape a = [1; 1; 5; 5] /\ nd_data a = repeat 7%Z 25 /\ reads = 1
  | _ => False
  end.
Proof. vm_compute. repeat split. Qed.

Example scenario_absent :
  match
    Scenario.block [Scenario.absent] [1; 1] 5 Scenario.uint8 3 [0; 0; 1; 1]
  with
  | (Ok (v_pixels a), reads) =>
      nd_shape a = [1; 1; 5; 5] /\ nd_data a = repeat 3%Z 25 /\ reads = 0
  | _ => False
  end.
Proof. vm_compute. repeat split. Qed.

Example scenario_elsewhere :
  match
    Scenario.block [Scenario.elsewhere] [1; 1] 5 Scenario.uint8 3
      [0; 0; 0; 1]
  with
  | (Ok (v_pixels a), reads) =>
      nd_shape a = [1; 1; 5; 5] /\ nd_data a = repeat 3%Z 25 /\ reads = 0
  | _ => False
  end.
Proof. vm_compute. repeat split. Qed.

Section BlocksWithAsset.
Context `{NP : NumPy} `{RIO : Rasterio}.
Context `{RS : !RasterSpecs} `{RP : !ReaderProtocol}.
Context `{TK : dask.Tokenize}.

Variables (asset_table : ndarray np_dtype AssetEntry) (spec : RasterSpec).
Variables (chunksize : Z) (resampling : Resampling) (dtype : np_dtype).
Variables (fill_value : scalar) (rescale : bool) (reader : ReaderType).
Variables (gdal_env : option LayeredEnv).
Variable errors_as_nodata : option (list string).

(** The reader [items_to_dask] makes for a URL. *)
Definition reader_of (u : string) : Reader :=
  reader u spec resampling dtype fill_value rescale gdal_env
    (or_empty errors_as_nodata).

Lemma one_fetch_with_url (cell : AssetEntry) (u : string)
  (asset_window cw : Window) (rows cols : slice) (world : World) :
  url cell = Some u ->
  bounds_window spec cell = Some asset_window ->
  from_slices rows cols = Some cw ->
  one_fetch spec resampling dtype fill_value rescale reader gdal_env
    errors_as_nodata cell rows cols world
  = if intersect cw asset_window then
      match reader_read (reader_of u) cw world with
      | (inr data, world') => (Ok (v_pixels (expand_dims2 data)), world')
      | (inl cls, world') => (Err (ReaderException cls), world')
      end
    else
      match
        np_cast (reader_fill_value (reader_of u))
          (reader_dtype (reader_of u))
      with
      | Some v =>
          (Ok (v_pixels
                 (NDArray (reader_dtype (reader_of u))
                    [1; 1; fst (window_shape cw); snd (window_shape cw)]
                    (repeat v
                       (fst (window_shape cw) * snd (window_shape cw))))),
           world)
      | None => (Err NumpyCastError, world)
      end.
Proof.
  intros Hurl Hwin Hcw.
  unfold one_fetch, reader_table_entry. rewrite Hurl.
  unfold bounds_window in Hwin.
  destruct (bounds cell) as [[[west south] east] north].
  rewrite Hwin. cbn [of_option rbind].
  unfold fetch_raster_window, bind, assert, lift, ret, raise.
  cbn [List.length Nat.eqb nd_size nd_shape prod_shape fold_right Nat.mul
       Nat.add nd_item nd_data from_slices_star].
  rewrite Hcw. cbn [of_option]. fold (reader_of u).
  destruct (intersect cw asset_window).
  - unfold read.
    now destruct (reader_read (reader_of u) cw world) as [[cls|data] w'].
  - unfold np_array.
    destruct (np_cast (reader_fill_value (reader_of u))
                (reader_dtype (reader_of u))) as [v|];
      cbn [of_option rbind]; [|reflexivity].
    rewrite broadcast_to_scalar. unfold full, block_shape.
    replace (prod_shape [1; 1; fst (window_shape cw); snd (window_shape cw)])
      with (fst (window_shape cw) * snd (window_shape cw))
      by (simpl; lia).
    reflexivity.
Qed.

(** X15.  For a cell with a URL, what a block of the array holds is
    decided by the overlap of the asset's window with the block's window
    alone.  If they intersect, the block is the reader's [read] of the
    block's window with two leading axes added, or the exception [read]
    raises; if they do not, the block is the constant array of the
    reader's fill value in the reader's dtype, of the window's shape, and
    the file is never read. *)
Theorem items_to_dask_block_with_url
  (created created' : list Layer) arr (rows cols : nat) :
  run_items_to_dask asset_table spec chunksize resampling dtype fill_value
    rescale reader gdal_env errors_as_nodata created
  = (Ok arr, created') ->
  nd_shape asset_table = [rows; cols] ->
  exists cy cx,
    skipn 2 (chunks arr) = [cy; cx]
    /\ forall (t b y x : nat) (cell : AssetEntry) (u : string)
              (asset_window cw : Window) (world : World),
         t < rows -> b < cols ->
         nth_error (nd_data asset_table) (t * cols + b) = Some cell ->
         url cell = Some u ->
         bounds_window spec cell = Some asset_window ->
         y < List.length cy -> x < List.length cx ->
         from_slices (window_of (Z.of_nat y, cy)) (window_of (Z.of_nat x, cx))
         = Some cw ->
         (intersect cw asset_window = true ->
          compute_block arr [t; b; y; x] world
          = match reader_read (reader_of u) cw world with
            | (inr data, world') =>
                (Ok (v_pixels (expand_dims2 data)), world')
            | (inl cls, world') => (Err (ReaderException cls), world')
            end)
         /\ (intersect cw asset_window = false ->
             forall v,
               np_cast (reader_fill_value (reader_of u))
                 (reader_dtype (reader_of u)) = Some v ->
               compute_block arr [t; b; y; x] world
               = (Ok (v_pixels
                        (NDArray (reader_dtype (reader_of u))
                           [1; 1; fst (window_shape cw);
                            snd (window_shape cw)]
                           (repeat v
                              (fst (window_shape cw)
                               * snd (window_shape cw))))),
                  world)).
Proof.
  intros Hrun Hshape.
  destruct (items_to_dask_returns_inv _ _ _ _ _ _ _ _ _ _ _ Hrun)
    as (_ & chunks_yx & Hn & -> & _).
  destruct (normalize_chunks_two _ _ _ Hn) as (cy & cx & ->).
  exists cy, cx. split.
  { unfold rasters, table_chunks. simpl. now rewrite Hshape. }
  intros t b y x cell u asset_window cw world
    Ht Hb Hcell Hurl Hwin Hy Hx Hcw.
  rewrite block_of_nonempty_table
    with (rows := rows) (cols := cols) (cell := cell) by assumption.
  rewrite one_fetch_with_url
    with (u := u) (asset_window := asset_window) (cw := cw)
    by assumption.
  split.
  - intros ->. reflexivity.
  - intros -> v ->. reflexivity.
Qed.

End BlocksWithAsset.

Lemma items_to_dask_block_with_url_witness :
  exists cy cx,
    skipn 2 (chunks six_cells_array) = [cy; cx]
    /\ forall (t b y x : nat) (cell : AssetEntry) (u : string)
              (asset_window cw : Window) (world : World),
         t < 2 -> b < 3 ->
         nth_error (nd_data (Scenario.table_of six_cells [2; 3])) (t * 3 + b)
         = Some cell ->
         url cell = Some u ->
         bounds_window (10, 10) cell = Some asset_window ->
         y < List.length cy -> x < List.length cx ->
         from_slices (window_of (Z.of_nat y, cy)) (window_of (Z.of_nat x, cx))
         = Some cw ->
         (intersect cw asset_window = true ->
          compute_block six_cells_array [t; b; y; x] world
          = match
              reader_read
                (reader_of (10, 10) tt Scenario.uint8 3%Z true
                   Scenario.open_tif None None u)
                cw world
            with
            | (inr data, world') =>
                (Ok (v_pixels (expand_dims2 data)), world')
            | (inl cls, world') => (Err (ReaderException cls), world')
            end)
         /\ (intersect cw asset_window = false ->
             forall v,
               np_cast
                 (reader_fill_value
                    (reader_of (10, 10) tt Scenario.uint8 3%Z true
                       Scenario.open_tif None None u))
                 (reader_dtype
                    (reader_of (10, 10) tt Scenario.uint8 3%Z true
                       Scenario.open_tif None None u))
               = Some v ->
               compute_block six_cells_array [t; b; y; x] world
               = (Ok (v_pixels
                        (NDArray
                           (reader_dtype
                              (reader_of (10, 10) tt Scenario.uint8 3%Z true
                                 Scenario.open_tif None None u))
                           [1; 1; fst (window_shape cw);
                            snd (window_shape cw)]
                           (repeat v
                              (fst (window_shape cw)
                               * snd (window_shape cw))))),
                  world)).
Proof.
  apply (@items_to_dask_block_with_url
           Scenario.numpy Scenario.rasterio Scenario.specs Scenario.readers
           Scenario.tokens (Scenario.table_of six_cells [2; 3]) (10, 10)
           4%Z tt Scenario.uint8 3%Z true Scenario.open_tif None None
           [] (dask_graph six_cells_array) six_cells_array 2 3).
  - exact six_cells_array_built.
  - reflexivity.
Defined.

(** * The shape of what the executor returns *)

Lemma broadcast_to_shape {D A} (a b : ndarray D A) (shape : list nat) :
  broadcast_to a shape = Ok b -> nd_shape b = shape /\ nd_dtype b = nd_dtype a.
Proof.
  unfold broadcast_to.
  destruct (List.length (nd_shape a) <=? List.length shape); [|discriminate].
  destruct (broadcastable _ shape); [|discriminate].
  intros [= <-]. now split.
Qed.

Section FetchShape.
Context `{NP : NumPy} `{RIO : Rasterio} `{RP : !ReaderProtocol}.

(** X16.  Whatever the entry is, a block [fetch_raster_window] returns
    has the shape [(1, 1, rows, cols)] of the requested window, provided
    the reader, when it is asked, answers with a block of the window's
    shape: no path returns the asset's extent or the fill array's own
    shape. *)
Theorem fetch_raster_window_shape
  (reader_entry : ndarray np_dtype ReaderTableEntry)
  (rows cols : slice) (cw : Window) (world world' : World)
  (out : ndarray np_dtype scalar) :
  from_slices rows cols = Some cw ->
  (forall reader asset_window data w,
      nd_data reader_entry = [entry_tuple reader asset_window] ->
      reader_read reader cw world = (inr data, w) ->
      nd_shape data = [fst (window_shape cw); snd (window_shape cw)]) ->
  fetch_raster_window reader_entry [rows; cols] world = (Ok out, world') ->
  nd_shape out = [1; 1; fst (window_shape cw); snd (window_shape cw)].
Proof.
  intros Hcw Hread.
  unfold fetch_raster_window, bind, assert, lift, ret, raise.
  cbn [List.length Nat.eqb].
  destruct (nd_size reader_entry =? 1); [|discriminate].
  unfold nd_item.
  destruct (nd_data reader_entry) as [|entry [|? ?]] eqn:Hdata;
    try discriminate.
  cbn [from_slices_star]. rewrite Hcw. cbn [of_option].
  destruct entry as [reader asset_window | fill_arr].
  - destruct (intersect cw asset_window).
    + unfold read.
      destruct (reader_read reader cw world) as [[cls|data] w] eqn:Hr;
        [discriminate|].
      intros [= <- _]. simpl.
      now rewrite (Hread reader asset_window data w eq_refl Hr).
    + destruct (np_array (reader_fill_value reader) (reader_dtype reader))
        as [fill_arr|]; [|discriminate].
      destruct (broadcast_to fill_arr (block_shape cw)) as [b|] eqn:Hb;
        [|discriminate].
      intros [= <- _]. now apply broadcast_to_shape in Hb.
  - destruct (broadcast_to fill_arr (block_shape cw)) as [b|] eqn:Hb;
      [|discriminate].
    intros [= <- _]. now apply broadcast_to_shape in Hb.
Qed.

End FetchShape.

Lemma fetch_raster_window_shape_witness :
  nd_shape (full Scenario.uint8 [1; 1; 5; 5] 7%Z) = [1; 1; 5; 5].
Proof.
  apply (@fetch_raster_window_shape
           Scenario.numpy Scenario.rasterio Scenario.readers
           (one_cell tif_covering) (Slice 0 5) (Slice 5 10)
           {| Scenario.col_off := 5; Scenario.row_off := 0;
              Scenario.width := 5; Scenario.height := 5 |}%Z
           0 1 (full Scenario.uint8 [1; 1; 5; 5] 7%Z)).
  - reflexivity.
  - intros reader asset_window data w _ Hr.
    simpl in Hr. unfold Scenario.tif_read in Hr.
    destruct (String.eqb (Scenario.tif_url reader) "broken.tif");
      [discriminate|].
    now injection Hr as <- _.
  - reflexivity.
Defined.

(** * The item axis of a table without items *)

(** C9.  The specification has every chunk along the item and asset axes
    of size exactly 1, and the source says as much of the asset table
    above its [from_array]: 1-element chunks, one chunk per asset.  On
    the table with no item and one asset column, with chunk size 5, on
    the 10 by 10 grid, [items_to_dask] returns an array whose chunks are
    [((0,), (1,), (5, 5), (5, 5))]: the item axis is one chunk of size
    0, so the chunks along the table axes are not all of size 1; and
    each of the four blocks of that array, once computed, fails the
    executor's assertion that its reader table has exactly one
    element. *)
Theorem items_to_dask_no_items_chunk :
  exists arr created,
    Scenario.stack [] [0; 1] 5 Scenario.uint8 3 = (Ok arr, created)
    /\ chunks arr = [[0]; [1]; [5; 5]; [5; 5]]%Z
    /\ ~ unit_leading_chunks 2 arr
    /\ dask.block_keys (chunks arr)
       = [[0; 0; 0; 0]; [0; 0; 0; 1]; [0; 0; 1; 0]; [0; 0; 1; 1]]
    /\ Forall
         (fun idx => compute_block arr idx 0 = (Err AssertionError, 0))
         (dask.block_keys (chunks arr)).
Proof.
  exists no_items_array, (dask_graph no_items_array).
  split; [exact no_items_array_built|].
  split; [reflexivity|].
  split; [|split; [reflexivity|]].
  - unfold unit_leading_chunks.
    change (firstn 2 (chunks no_items_array)) with [[0%Z]; [1%Z]].
    intros Hunit. inversion Hunit as [|l ls Hitem Hrest].
    inversion Hitem as [|c cs Hsize Hnone]. discriminate Hsize.
  - change (dask.block_keys (chunks no_items_array))
      with [[0; 0; 0; 0]; [0; 0; 0; 1]; [0; 0; 1; 0]; [0; 0; 1; 1]].
    repeat constructor;
      apply (@block_of_empty_item_axis
               Scenario.numpy Scenario.rasterio Scenario.specs
               Scenario.readers Scenario.tokens
               (Scenario.table_of [] [0; 1]) (10, 10) tt Scenario.uint8
               3%Z true Scenario.open_tif None None
               [5; 5]%Z [5; 5]%Z 1 eq_refl);
      repeat constructor.
Qed.
